(** * Bid Euchre engine: data model, helpers, legality checker and dispatch.

    A shallow embedding of [definitions.ts], [utils.ts] and [index.ts].
    String-literal union types become inductive types, interfaces become
    records, arrays become lists, [undefined] becomes [None]. *)

From Stdlib Require Import String Ascii Bool Arith ZArith QArith Qround Lia.
From Stdlib Require Import List Permutation.
Import ListNotations.
Open Scope string_scope.
Open Scope list_scope.
Open Scope nat_scope.

(** ** definitions.ts *)

Inductive CardRank := Nine | Ten | Jack | Queen | King | Ace.
Inductive CardSuit := Clubs | Diamonds | Hearts | Spades.

Record Card := mkCard { rank : CardRank; suit : CardSuit }.

Inductive PlayerPosition := P1 | P2 | P3 | P4.

Record LobbyPlayer := mkLobbyPlayer {
  lobby_name : string;
  lobby_position : PlayerPosition }.

Record Player := mkPlayer {
  name : string;
  position : PlayerPosition;
  hand : list Card }.

Record Team := mkTeam {
  players : list Player;
  points : Z }.

Inductive BidChoice :=
  Pass | Bid3 | Bid4 | Bid5 | Bid6 | PartnersBestCard | GoingAlone.

Inductive Trump := TrumpSuit (s : CardSuit) | High | Low.

Record Bid := mkBid { playerPosition : PlayerPosition; choice : BidChoice }.

Record UpCard := mkUpCard { owner : PlayerPosition; card : Card }.

(** [Trick] and [FinishedTrick] are two names of [UpCard[]]. *)
Abbreviation Trick := (list UpCard).
Abbreviation FinishedTrick := (list UpCard).

Record BiddingPhase := mkBiddingPhase {
  bidding_teams : list Team;
  bidding_dealer : PlayerPosition;
  bidPosition : PlayerPosition;
  bids : list Bid }.

Record TrumpPickingPhase := mkTrumpPickingPhase {
  picking_teams : list Team;
  picking_dealer : PlayerPosition;
  picking_winningBid : Bid }.

Record PartnersBestCardPickingPhase := mkPartnersBestCardPickingPhase {
  best_teams : list Team;
  best_dealer : PlayerPosition;
  best_trump : Trump;
  best_winningBid : Bid;
  partner : PlayerPosition }.

Record TrickTakingPhase := mkTrickTakingPhase {
  trick_teams : list Team;
  trick_dealer : PlayerPosition;
  trump : Trump;
  winningBid : Bid;
  cardPosition : PlayerPosition;
  currentTrick : Trick;
  finishedTricks : list FinishedTrick;
  playerSittingOut : option PlayerPosition }.

Record GameOverPhase := mkGameOverPhase { winners : Team; losers : Team }.

(** The union [Phase], tagged by its [name] field. *)
Inductive Phase :=
| Bidding (p : BiddingPhase)
| PickingTrump (p : TrumpPickingPhase)
| PickingPartnersBestCard (p : PartnersBestCardPickingPhase)
| TrickTaking (p : TrickTakingPhase).

Definition teams (phase : Phase) : list Team :=
  match phase with
  | Bidding p => bidding_teams p
  | PickingTrump p => picking_teams p
  | PickingPartnersBestCard p => best_teams p
  | TrickTaking p => trick_teams p
  end.

Definition FourHands := list (list Card).

(** Decidable equalities ([===] on string literals). *)

Definition CardRank_eq_dec (a b : CardRank) : {a = b} + {a <> b}.
Proof. decide equality. Defined.
Definition CardSuit_eq_dec (a b : CardSuit) : {a = b} + {a <> b}.
Proof. decide equality. Defined.
Definition PlayerPosition_eq_dec (a b : PlayerPosition) : {a = b} + {a <> b}.
Proof. decide equality. Defined.
Definition BidChoice_eq_dec (a b : BidChoice) : {a = b} + {a <> b}.
Proof. decide equality. Defined.
Definition Trump_eq_dec (a b : Trump) : {a = b} + {a <> b}.
Proof. decide equality. apply CardSuit_eq_dec. Defined.
Definition Card_eq_dec (a b : Card) : {a = b} + {a <> b}.
Proof. decide equality; [apply CardSuit_eq_dec | apply CardRank_eq_dec]. Defined.

Definition rank_eqb (a b : CardRank) : bool :=
  if CardRank_eq_dec a b then true else false.
Definition suit_eqb (a b : CardSuit) : bool :=
  if CardSuit_eq_dec a b then true else false.
Definition position_eqb (a b : PlayerPosition) : bool :=
  if PlayerPosition_eq_dec a b then true else false.
Definition bid_eqb (a b : BidChoice) : bool :=
  if BidChoice_eq_dec a b then true else false.
Definition trump_eqb (a b : Trump) : bool :=
  if Trump_eq_dec a b then true else false.

(** ** utils.ts *)

Module Utils.

Definition bidHierarchy : list BidChoice :=
  [GoingAlone; PartnersBestCard; Bid6; Bid5; Bid4; Bid3; Pass].

(** [bidHierarchy.filter(...)[0]]; indexing an empty array gives [undefined]. *)
Definition getHigherBid (bidA bidB : BidChoice) : option BidChoice :=
  hd_error
    (filter (fun element => bid_eqb element bidA || bid_eqb element bidB)
            bidHierarchy).

Definition getNextPosition (position : PlayerPosition) : PlayerPosition :=
  match position with
  | P1 => P2
  | P2 => P3
  | P3 => P4
  | P4 => P1
  end.

Definition getPositionOfPartner (position : PlayerPosition) : PlayerPosition :=
  match position with
  | P1 => P3
  | P2 => P4
  | P3 => P1
  | P4 => P2
  end.

(** [getHigherBid(first, second) === first]; [undefined === first] is false. *)
Definition isFirstBidGreaterThanSecond (first second : BidChoice) : bool :=
  match getHigherBid first second with
  | Some higher => bid_eqb higher first
  | None => false
  end.

Definition getHigherBids (bid : BidChoice) : list BidChoice :=
  filter (fun element => isFirstBidGreaterThanSecond element bid) bidHierarchy.

Definition getSameColorSuit (suit : CardSuit) : CardSuit :=
  match suit with
  | Clubs => Spades
  | Spades => Clubs
  | Diamonds => Hearts
  | Hearts => Diamonds
  end.

Definition getCardsOfSuitWhenTrumpOrderedByHierarchyDesc
    (suit : CardSuit) (trump : Trump) : list Card :=
  match trump with
  | Low | High =>
      let cards :=
        [ mkCard Nine suit; mkCard Ten suit; mkCard Jack suit;
          mkCard Queen suit; mkCard King suit; mkCard Ace suit ] in
      if trump_eqb trump Low then cards else rev cards
  | TrumpSuit trumpSuit =>
      let leftBowerSuit := getSameColorSuit suit in
      if suit_eqb suit trumpSuit then
        [ mkCard Jack suit; mkCard Jack leftBowerSuit; mkCard Ace suit;
          mkCard King suit; mkCard Queen suit; mkCard Ten suit;
          mkCard Nine suit ]
      else if suit_eqb leftBowerSuit suit then
        [ mkCard Ace suit; mkCard King suit; mkCard Queen suit;
          mkCard Ten suit; mkCard Nine suit ]
      else
        [ mkCard Ace suit; mkCard King suit; mkCard Queen suit;
          mkCard Jack suit; mkCard Ten suit; mkCard Nine suit ]
  end.

Definition isSameCard (a b : Card) : bool :=
  rank_eqb (rank a) (rank b) && suit_eqb (suit a) (suit b).

(** [Math.random()] is a parameter [random], a rational in [0, 1).  The
    arithmetic is exact, where the source computes in doubles: the two agree
    at the only call, [randomNumberBothInclusive(0, 3)], where the product
    by 4 is exact in a double; nothing is stated for other bounds. *)
Definition randomNumberBothInclusive (random : Q) (min max : Q) : Z :=
  let min := Qceiling min in
  let max := Qfloor max in
  (Qfloor (random * inject_Z (max - min + 1)) + min)%Z.

(** [playerPositions[i]]; an index outside the array gives [undefined]. *)
Definition randomPlayerPosition (random : Q) : option PlayerPosition :=
  let playerPositions := [P1; P2; P3; P4] in
  let i := randomNumberBothInclusive random 0 3 in
  if (i <? 0)%Z then None else nth_error playerPositions (Z.to_nat i).

Definition getAllCards : list Card :=
  [ mkCard Nine Clubs; mkCard Ten Clubs; mkCard Jack Clubs;
    mkCard Queen Clubs; mkCard King Clubs; mkCard Ace Clubs;
    mkCard Nine Diamonds; mkCard Ten Diamonds; mkCard Jack Diamonds;
    mkCard Queen Diamonds; mkCard King Diamonds; mkCard Ace Diamonds;
    mkCard Nine Hearts; mkCard Ten Hearts; mkCard Jack Hearts;
    mkCard Queen Hearts; mkCard King Hearts; mkCard Ace Hearts;
    mkCard Nine Spades; mkCard Ten Spades; mkCard Jack Spades;
    mkCard Queen Spades; mkCard King Spades; mkCard Ace Spades ].

(** Six consecutive reads [a[i], ..., a[i+5]]; a read past the end of the
    array is [undefined], and then the hand is not a [FullHand]. *)
Definition sixFrom (a : list Card) (i : nat) : option (list Card) :=
  match nth_error a i, nth_error a (i + 1), nth_error a (i + 2),
        nth_error a (i + 3), nth_error a (i + 4), nth_error a (i + 5) with
  | Some c0, Some c1, Some c2, Some c3, Some c4, Some c5 =>
      Some [c0; c1; c2; c3; c4; c5]
  | _, _, _, _, _, _ => None
  end.

Section Dealing.
(** [shuffle.ts] is imported; one run of it is a function on arrays. *)
Variable shuffle : list Card -> list Card.

Definition shuffleAndDealFourHands : option FourHands :=
  let allCardsShuffled := shuffle getAllCards in
  match sixFrom allCardsShuffled 0, sixFrom allCardsShuffled 6,
        sixFrom allCardsShuffled 12, sixFrom allCardsShuffled 18 with
  | Some h0, Some h1, Some h2, Some h3 => Some [h0; h1; h2; h3]
  | _, _, _, _ => None
  end.
End Dealing.

Definition getIndex (position : PlayerPosition) : nat :=
  match position with
  | P1 => 0
  | P2 => 1
  | P3 => 2
  | P4 => 3
  end.

Definition getHandSliceViaPosition
    (position : PlayerPosition) (fourShuffledHands : FourHands)
    : option (list Card) :=
  nth_error fourShuffledHands (getIndex position).

End Utils.

(** ** index.ts *)

Module Engine.
Import Utils.

(** *** Option values and [JSON.stringify]

    [Option = BidChoice | Trump | Card].  The two string unions are disjoint.
    A [Card] option is an object; JavaScript keeps the order in which its own
    properties were created, and [JSON.stringify] prints them in that order,
    so the order is part of the run-time value. *)

Inductive PropertyOrder := RankThenSuit | SuitThenRank.

Record CardObject := mkCardObject {
  cardOf : Card;
  propertyOrder : PropertyOrder }.

Inductive Option :=
| OptionBid (b : BidChoice)
| OptionTrump (t : Trump)
| OptionCard (c : CardObject).

(** The object literal [{ rank: r, suit: s }], as written throughout the source. *)
Definition cardLiteral (c : Card) : CardObject := mkCardObject c RankThenSuit.

Definition rankString (r : CardRank) : string :=
  match r with
  | Nine => "9" | Ten => "10" | Jack => "Jack"
  | Queen => "Queen" | King => "King" | Ace => "Ace"
  end.

Definition suitString (s : CardSuit) : string :=
  match s with
  | Clubs => "Clubs" | Diamonds => "Diamonds"
  | Hearts => "Hearts" | Spades => "Spades"
  end.

Definition bidChoiceString (b : BidChoice) : string :=
  match b with
  | Pass => "Pass" | Bid3 => "3" | Bid4 => "4" | Bid5 => "5" | Bid6 => "6"
  | PartnersBestCard => "Partner's Best Card"
  | GoingAlone => "Going Alone"
  end.

Definition trumpString (t : Trump) : string :=
  match t with
  | TrumpSuit s => suitString s
  | High => "High"
  | Low => "Low"
  end.

Definition quote : string := String "034"%char EmptyString.

(** [JSON.stringify] of a string without characters that need escaping
    (none of the literals above has any). *)
Definition stringifyString (s : string) : string := quote ++ s ++ quote.

Definition stringifyProperty (key value : string) : string :=
  stringifyString key ++ ":" ++ stringifyString value.

Definition JSON_stringify (o : Option) : string :=
  match o with
  | OptionBid b => stringifyString (bidChoiceString b)
  | OptionTrump t => stringifyString (trumpString t)
  | OptionCard c =>
      let r := stringifyProperty "rank" (rankString (rank (cardOf c))) in
      let s := stringifyProperty "suit" (suitString (suit (cardOf c))) in
      match propertyOrder c with
      | RankThenSuit => "{" ++ r ++ "," ++ s ++ "}"
      | SuitThenRank => "{" ++ s ++ "," ++ r ++ "}"
      end
  end.

(** The string value of an option, when it is a primitive string. *)
Definition stringOf (a : Option) : option string :=
  match a with
  | OptionBid b => Some (bidChoiceString b)
  | OptionTrump t => Some (trumpString t)
  | OptionCard _ => None
  end.

Definition includes (l : list string) (a : Option) : bool :=
  match stringOf a with
  | Some s => existsb (String.eqb s) l
  | None => false
  end.

(** Both properties are present on every [CardObject]; a string has neither. *)
Definition isCard (a : Option) : bool :=
  match a with
  | OptionCard _ => true
  | _ => false
  end.

Definition isBidChoice (a : Option) : bool :=
  includes ["Pass"; "3"; "4"; "5"; "6"; "Partner's Best Card"; "Going Alone"] a.

Definition isTrump (a : Option) : bool :=
  includes ["Clubs"; "Diamonds"; "Hearts"; "High"; "Low"; "Spades"] a.

(** *** Array helpers *)

(** [Array.prototype.every] with the element index. *)
Fixpoint everyFrom {A} (f : A -> nat -> bool) (i : nat) (l : list A) : bool :=
  match l with
  | [] => true
  | x :: rest => f x i && everyFrom f (S i) rest
  end.

Definition every {A} (f : A -> nat -> bool) (l : list A) : bool :=
  everyFrom f 0 l.

(** [new Set(array)]: values are added in order, a value already present is
    skipped. *)
Definition setAdd (s : list PlayerPosition) (x : PlayerPosition)
    : list PlayerPosition :=
  if existsb (position_eqb x) s then s else s ++ [x].

Definition newSet (l : list PlayerPosition) : list PlayerPosition :=
  fold_left setAdd l [].

Definition isTrickTaking (phase : Phase) : bool :=
  match phase with TrickTaking _ => true | _ => false end.

Definition isPickingPartnersBestCard (phase : Phase) : bool :=
  match phase with PickingPartnersBestCard _ => true | _ => false end.

Definition sittingOutMessage : string :=
  "The player sitting out shouldn't be able to play".
Definition teamLengthMessage : string := "Team lengths were not two".
Definition handSizeMessage : string :=
  "Not all players have 6 cards in their hands each even though we aren't in the Trick-Taking Phase yet.".
Definition ownersMessage : string :=
  "One of the finished tricks has more than one card from the same player.".
Definition cardCountMessage : string := "Game does not have 24 cards in play.".
Definition uniqueMessage : string := "Not every card is unique".
Definition seatMessage : string :=
  "At least two of the players are sharing the same seat.".
Definition oppositeMessage : string :=
  "Players of the same team are not sitting opposite each other.".
Definition currentTrickMessage : string :=
  "The current trick cannot have 4 or more cards in it, if it did then it wouldn't be considered the current trick and should instead be one of the finished tricks.".
Definition noIssueMessage : string := "No issue detected".

Definition distinctOwners (trick : list UpCard) : bool :=
  length (newSet (map owner trick)) =? length trick.

Definition determineIfPhaseIsLegal (phase : Phase) : bool * string :=
  if match phase with
     | TrickTaking p =>
         match playerSittingOut p with
         | Some sittingOut => position_eqb sittingOut (cardPosition p)
         | None => false
         end
     | _ => false
     end
  then (false, sittingOutMessage)
  else
  match teams phase with
  | [team0; team1] =>
    let allPlayers : list Player := players team0 ++ players team1 in
    if negb (isTrickTaking phase) && negb (isPickingPartnersBestCard phase)
       && negb (forallb (fun player => length (hand player) =? 6) allPlayers)
    then (false, handSizeMessage)
    else
    let cardsInHandsOfPlayers : list Card :=
      fold_left (fun accumulator currentValue => accumulator ++ hand currentValue)
                allPlayers [] in
    let doesEachFinishedTrickHaveOnlyOneCardFromEachOwner :=
      match phase with
      | TrickTaking p =>
          forallb distinctOwners (finishedTricks p)
          && distinctOwners (currentTrick p)
      | _ => true
      end in
    if negb doesEachFinishedTrickHaveOnlyOneCardFromEachOwner
    then (false, ownersMessage)
    else
    let cardsInPlay : list Card :=
      match phase with
      | TrickTaking p =>
          flat_map (fun trick => map card trick) (finishedTricks p)
          ++ map card (currentTrick p)
      | _ => []
      end in
    let cards : list Card := cardsInHandsOfPlayers ++ cardsInPlay in
    let hasTwentyFourCards := length cards =? 24 in
    if negb hasTwentyFourCards then (false, cardCountMessage)
    else
    let isEveryCardUnique :=
      every (fun firstCard firstIndex =>
        every (fun secondCard secondIndex =>
          if firstIndex =? secondIndex then true
          else
            let areNotTheSame :=
              negb (rank_eqb (rank firstCard) (rank secondCard))
              || negb (suit_eqb (suit firstCard) (suit secondCard)) in
            areNotTheSame) cards) cards in
    if negb isEveryCardUnique then (false, uniqueMessage)
    else
    if negb (length (newSet (map position allPlayers)) =? 4)
    then (false, seatMessage)
    else
    if negb (forallb (fun team =>
               let positions := map position (players team) in
               (existsb (position_eqb P1) positions
                && existsb (position_eqb P3) positions)
               || (existsb (position_eqb P2) positions
                   && existsb (position_eqb P4) positions))
             (teams phase))
    then (false, oppositeMessage)
    else
    if match phase with
       | TrickTaking p => 4 <=? length (currentTrick p)
       | _ => false
       end
    then (false, currentTrickMessage)
    else (true, noIssueMessage)
  | _ => (false, teamLengthMessage)
  end.

(** *** Per-phase collaborators

    [get_options_utils/*] and [choose_option_utils/*] are imported by
    [index.ts]; the engine is parametric in them. *)

Record Collaborators := mkCollaborators {
  getOptionsForBiddingPhase :
    BiddingPhase -> PlayerPosition -> list Option;
  getOptionsForTrumpPickingPhase :
    TrumpPickingPhase -> PlayerPosition -> list Option;
  getOptionsForTrickTakingPhase :
    TrickTakingPhase -> PlayerPosition -> list Option;
  getOptionsForPartnersBestCardPickingPhase :
    PartnersBestCardPickingPhase -> PlayerPosition -> list Option;
  chooseOptionForBiddingPhase :
    BidChoice -> BiddingPhase -> PlayerPosition -> Phase + GameOverPhase;
  chooseOptionForPickingTrumpPhase :
    Trump -> TrumpPickingPhase -> Phase + GameOverPhase;
  chooseOptionForPickingPartnersBestCardPhase :
    CardObject -> PartnersBestCardPickingPhase -> PlayerPosition ->
    Phase + GameOverPhase;
  chooseOptionForTrickTakingPhase :
    CardObject -> TrickTakingPhase -> PlayerPosition -> Phase + GameOverPhase }.

Definition getOptions (C : Collaborators)
    (phase : Phase) (currentPlayer : PlayerPosition) : list Option :=
  if negb (fst (determineIfPhaseIsLegal phase)) then []
  else
    match phase with
    | Bidding p => getOptionsForBiddingPhase C p currentPlayer
    | PickingTrump p => getOptionsForTrumpPickingPhase C p currentPlayer
    | TrickTaking p => getOptionsForTrickTakingPhase C p currentPlayer
    | PickingPartnersBestCard p =>
        getOptionsForPartnersBestCardPickingPhase C p currentPlayer
    end.

Definition isLegalOption (C : Collaborators)
    (option : Option) (phase : Phase) (currentPlayer : PlayerPosition) : bool :=
  existsb (fun o => String.eqb (JSON_stringify o) (JSON_stringify option))
          (getOptions C phase currentPlayer).

(** An array is an object, and every object is truthy: [!array] is false. *)
Definition truthy {A B} (array : A * B) : bool := true.

(** The closure [getPhase] of [chooseOption].  The type guards narrow
    [option]; the pattern on [option] is the narrowing, see [isBidChoice],
    [isTrump] and [isCard]. *)
Definition getPhase (C : Collaborators)
    (option : Option) (phase : Phase) (currentPlayer : PlayerPosition)
    : Phase + GameOverPhase :=
  match phase, option with
  | Bidding p, OptionBid b =>
      chooseOptionForBiddingPhase C b p currentPlayer
  | PickingTrump p, OptionTrump t =>
      chooseOptionForPickingTrumpPhase C t p
  | PickingPartnersBestCard p, OptionCard c =>
      chooseOptionForPickingPartnersBestCardPhase C c p currentPlayer
  | TrickTaking p, OptionCard c =>
      chooseOptionForTrickTakingPhase C c p currentPlayer
  | _, _ => inl phase
  end.

(** [chooseOption] returns the phase together with the lines it passed to
    [console.warn], oldest first. *)
Definition chooseOption (C : Collaborators)
    (option : Option) (phase : Phase) (currentPlayer : PlayerPosition)
    : (Phase + GameOverPhase) * list string :=
  if negb (isLegalOption C option phase currentPlayer)
     || negb (truthy (determineIfPhaseIsLegal phase))
  then
    if negb (isLegalOption C option phase currentPlayer)
    then (inl phase, ["Option is illegal"])
    else
      let errorMessage := snd (determineIfPhaseIsLegal phase) in
      (inl phase, [errorMessage])
  else
    let nextPhase := getPhase C option phase currentPlayer in
    match nextPhase with
    | inr _ => (nextPhase, [])
    | inl next =>
        let (isLegalPhase, errorMessage) := determineIfPhaseIsLegal next in
        if isLegalPhase then (nextPhase, [])
        else (inl phase, [errorMessage])
    end.

(** *** startGame

    [None] stands for a run in which an [undefined] reaches a place where the
    types promise a value: no dealer, a short deck, or an empty seat.  The
    source does not stop there: with an empty seat it goes on with a player
    that has no name and no position and returns the checker's diagnostic,
    and with a short deck the checker throws when it reads the rank of a
    missing card.  Those runs are left out; the properties below are stated
    for a draw in [0, 1), a deck of at least 24 cards and four taken seats. *)

Definition bindOption {A B} (a : option A) (f : A -> option B) : option B :=
  match a with
  | Some x => f x
  | None => None
  end.

Notation "x <- a ;; k" := (bindOption a (fun x => k))
  (at level 61, a at next level, right associativity).

Definition startGame (shuffle : list Card -> list Card) (random : Q)
    (players : list LobbyPlayer)
    : option (BiddingPhase + bool * string) :=
  dealer <- randomPlayerPosition random ;;
  let getPlayerInPosition (position : PlayerPosition) : option LobbyPlayer :=
    hd_error
      (filter (fun player => position_eqb (lobby_position player) position)
              players) in
  fourShuffledHands <- shuffleAndDealFourHands shuffle ;;
  let dealPlayer (position : PlayerPosition) : option Player :=
    lobbyPlayer <- getPlayerInPosition position ;;
    slice <- getHandSliceViaPosition position fourShuffledHands ;;
    Some (mkPlayer (lobby_name lobbyPlayer) (lobby_position lobbyPlayer)
                   slice) in
  player1 <- dealPlayer P1 ;;
  player3 <- dealPlayer P3 ;;
  player2 <- dealPlayer P2 ;;
  player4 <- dealPlayer P4 ;;
  let phase :=
    {| bids := [];
       bidding_dealer := dealer;
       bidPosition := getNextPosition dealer;
       bidding_teams :=
         [ {| points := 0; players := [player1; player3] |};
           {| points := 0; players := [player2; player4] |} ] |} in
  let result := determineIfPhaseIsLegal (Bidding phase) in
  Some (if fst result then inl phase else inr result).

End Engine.

(** ** Vocabulary of the properties

    Definitions used to state the properties below, and concrete
    collaborators and phases on which they are evaluated. *)

Module Statements.
Import Utils Engine.

(** Position of a bid in the order
    Pass < 3 < 4 < 5 < 6 < Partner's Best Card < Going Alone. *)
Definition bidRank (b : BidChoice) : nat :=
  match b with
  | Pass => 0 | Bid3 => 1 | Bid4 => 2 | Bid5 => 3 | Bid6 => 4
  | PartnersBestCard => 5 | GoingAlone => 6
  end.

(** Equality of two options by value: the same string, or cards with the same
    rank and suit ([isSameCard]). *)
Definition structurallyEqual (a b : Option) : bool :=
  match a, b with
  | OptionBid x, OptionBid y => bid_eqb x y
  | OptionTrump x, OptionTrump y => trump_eqb x y
  | OptionCard x, OptionCard y => isSameCard (cardOf x) (cardOf y)
  | _, _ => false
  end.

Definition allSuits : list CardSuit := [Clubs; Diamonds; Hearts; Spades].

(** How often a card occurs in the four ranked lists under [trump]. *)
Definition occurrencesInRankings (trump : Trump) (c : Card) : nat :=
  count_occ Card_eq_dec
    (flat_map
       (fun suit => getCardsOfSuitWhenTrumpOrderedByHierarchyDesc suit trump)
       allSuits)
    c.

(** Every option value of the model. *)
Definition allCardObjects : list CardObject :=
  flat_map (fun c => [mkCardObject c RankThenSuit; mkCardObject c SuitThenRank])
           getAllCards.

Definition allOptions : list Option :=
  map OptionBid bidHierarchy
  ++ map OptionTrump [TrumpSuit Clubs; TrumpSuit Diamonds; TrumpSuit Hearts;
                      TrumpSuit Spades; High; Low]
  ++ map OptionCard allCardObjects.

(** Reading a [JSON.stringify] text back. *)
Definition parseOption (text : string) : option Option :=
  find (fun o => String.eqb (JSON_stringify o) text) allOptions.

(** The tricks of a phase, and all its cards: hands, finished tricks, current
    trick. *)
Definition tricksOf (phase : Phase) : list (list UpCard) :=
  match phase with
  | TrickTaking p => finishedTricks p ++ [currentTrick p]
  | _ => []
  end.

Definition playersOf (phase : Phase) : list Player :=
  flat_map players (teams phase).

Definition cardsOf (phase : Phase) : list Card :=
  flat_map hand (playersOf phase)
  ++ flat_map (fun trick => map card trick) (tricksOf phase).

Definition sitsOpposite (team : Team) : Prop :=
  let positions := map position (players team) in
  (In P1 positions /\ In P3 positions) \/ (In P2 positions /\ In P4 positions).

Definition currentTrickIsFull (phase : Phase) : bool :=
  match phase with
  | TrickTaking p => 4 <=? length (currentTrick p)
  | _ => false
  end.

(** Every invariant the checker tests before it looks at the size of the
    current trick. *)
Definition passesEarlierChecks (phase : Phase) : Prop :=
  match phase with
  | TrickTaking p => playerSittingOut p <> Some (cardPosition p)
  | _ => True
  end /\
  length (teams phase) = 2 /\
  match phase with
  | Bidding _ | PickingTrump _ =>
      Forall (fun player => length (hand player) = 6) (playersOf phase)
  | _ => True
  end /\
  Forall (fun trick => NoDup (map owner trick)) (tricksOf phase) /\
  length (cardsOf phase) = 24 /\
  NoDup (cardsOf phase) /\
  length (playersOf phase) = 4 /\
  NoDup (map position (playersOf phase)) /\
  Forall sitsOpposite (teams phase).

(** A freshly dealt Bidding phase. *)
Definition isFreshDeal (phase : BiddingPhase) : Prop :=
  In (bidding_dealer phase) [P1; P2; P3; P4] /\
  bidPosition phase = getNextPosition (bidding_dealer phase) /\
  bids phase = [] /\
  exists player1 player2 player3 player4,
    bidding_teams phase =
      [ mkTeam [player1; player3] 0; mkTeam [player2; player4] 0 ] /\
    position player1 = P1 /\ position player2 = P2 /\
    position player3 = P3 /\ position player4 = P4 /\
    length (hand player1) = 6 /\ length (hand player2) = 6 /\
    length (hand player3) = 6 /\ length (hand player4) = 6.

End Statements.

Module Samples.
Import Utils Engine.

Definition handOf (teams : list Team) (seat : PlayerPosition) : list Card :=
  flat_map hand
    (filter (fun player => position_eqb (position player) seat)
            (flat_map players teams)).

Definition withoutCard (c : Card) (player : Player) : Player :=
  mkPlayer (name player) (position player)
           (filter (fun held => negb (isSameCard held c)) (hand player)).

Definition dropCard (c : Card) (team : Team) : Team :=
  mkTeam (map (withoutCard c) (players team)) (points team).

(** Collaborators for the examples: bids are appended, a picked trump opens
    the first trick, a played card ends the game, and the partner's-best-card
    routine is faulty: it loses the chosen card. *)
Definition sampleCollaborators : Collaborators :=
  {| getOptionsForBiddingPhase := fun p seat =>
       if position_eqb (bidPosition p) seat
       then map OptionBid (rev bidHierarchy) else [];
     getOptionsForTrumpPickingPhase := fun p seat =>
       if position_eqb (playerPosition (picking_winningBid p)) seat
       then map OptionTrump [TrumpSuit Clubs; TrumpSuit Diamonds;
                             TrumpSuit Hearts; TrumpSuit Spades; High; Low]
       else [];
     getOptionsForTrickTakingPhase := fun p seat =>
       if position_eqb (cardPosition p) seat
       then map (fun c => OptionCard (cardLiteral c))
                (handOf (trick_teams p) seat)
       else [];
     getOptionsForPartnersBestCardPickingPhase := fun p seat =>
       if position_eqb (partner p) seat
       then map (fun c => OptionCard (cardLiteral c))
                (handOf (best_teams p) seat)
       else [];
     chooseOptionForBiddingPhase := fun b p seat =>
       inl (Bidding (mkBiddingPhase (bidding_teams p) (bidding_dealer p)
                       (getNextPosition seat) (bids p ++ [mkBid seat b])));
     chooseOptionForPickingTrumpPhase := fun t p =>
       inl (TrickTaking
              (mkTrickTakingPhase (picking_teams p) (picking_dealer p) t
                 (picking_winningBid p)
                 (getNextPosition (picking_dealer p)) [] [] None));
     chooseOptionForPickingPartnersBestCardPhase := fun c p seat =>
       inl (PickingPartnersBestCard
              (mkPartnersBestCardPickingPhase
                 (map (dropCard (cardOf c)) (best_teams p)) (best_dealer p)
                 (best_trump p) (best_winningBid p) (partner p)));
     chooseOptionForTrickTakingPhase := fun c p seat =>
       match trick_teams p with
       | [team0; team1] => inr (mkGameOverPhase team0 team1)
       | _ => inl (TrickTaking p)
       end |}.

Definition clubs : list Card := firstn 6 getAllCards.
Definition diamonds : list Card := firstn 6 (skipn 6 getAllCards).
Definition hearts : list Card := firstn 6 (skipn 12 getAllCards).
Definition spades : list Card := firstn 6 (skipn 18 getAllCards).

Definition sampleTeams : list Team :=
  [ mkTeam [mkPlayer "Ann" P1 clubs; mkPlayer "Cat" P3 hearts] 0;
    mkTeam [mkPlayer "Bob" P2 diamonds; mkPlayer "Dan" P4 spades] 0 ].

Definition sampleBidding : Phase :=
  Bidding (mkBiddingPhase sampleTeams P1 P2 []).

Definition samplePickingTrump : Phase :=
  PickingTrump (mkTrumpPickingPhase sampleTeams P1 (mkBid P2 Bid3)).

Definition samplePickingBest : Phase :=
  PickingPartnersBestCard
    (mkPartnersBestCardPickingPhase sampleTeams P1 High
       (mkBid P2 PartnersBestCard) P4).

Definition sampleTrickTaking : TrickTakingPhase :=
  mkTrickTakingPhase sampleTeams P1 High (mkBid P2 Bid3) P2 [] [] None.

(** Nobody holds a card. *)
Definition emptyHanded : Phase :=
  Bidding (mkBiddingPhase
    [ mkTeam [mkPlayer "Ann" P1 []; mkPlayer "Cat" P3 []] 0;
      mkTeam [mkPlayer "Bob" P2 []; mkPlayer "Dan" P4 []] 0 ] P1 P2 []).



Definition sittingOutToPlay : TrickTakingPhase :=
  mkTrickTakingPhase sampleTeams P1 High (mkBid P2 GoingAlone) P4 [] []
    (Some P4).

Definition nineOfDiamonds : Card := mkCard Nine Diamonds.

Definition sampleLobby : list LobbyPlayer :=
  [ mkLobbyPlayer "Ann" P1; mkLobbyPlayer "Bob" P2;
    mkLobbyPlayer "Cat" P3; mkLobbyPlayer "Dan" P4 ].

End Samples.

(** ** Vocabulary of the further properties *)

Module Invariants.
Import Utils Engine Statements Samples.

Definition allPositions : list PlayerPosition := [P1; P2; P3; P4].

(** The invariants of a game snapshot: no sitting-out player to act, two
    teams, six-card hands before play, one card per seat in every trick,
    24 distinct cards, every seat taken, partners opposite, and a current
    trick of fewer than four cards. *)
Definition isConsistent (phase : Phase) : Prop :=
  match phase with
  | TrickTaking p => playerSittingOut p <> Some (cardPosition p)
  | _ => True
  end /\
  length (teams phase) = 2 /\
  match phase with
  | Bidding _ | PickingTrump _ =>
      Forall (fun player => length (hand player) = 6) (playersOf phase)
  | _ => True
  end /\
  Forall (fun trick => NoDup (map owner trick)) (tricksOf phase) /\
  length (cardsOf phase) = 24 /\
  NoDup (cardsOf phase) /\
  (forall seat, In seat (map position (playersOf phase))) /\
  Forall sitsOpposite (teams phase) /\
  currentTrickIsFull phase = false.

(** The diagnostics of the checker, in the order of its checks. *)
Definition diagnostics : list string :=
  [ sittingOutMessage; teamLengthMessage; handSizeMessage; ownersMessage;
    cardCountMessage; uniqueMessage; seatMessage; oppositeMessage;
    currentTrickMessage ].

(** The type guard [chooseOption] pairs with each phase name. *)
Definition guardOf (phase : Phase) (option : Option) : bool :=
  match phase with
  | Bidding _ => isBidChoice option
  | PickingTrump _ => isTrump option
  | PickingPartnersBestCard _ => isCard option
  | TrickTaking _ => isCard option
  end.

(** The cards a seat is dealt: six consecutive cards of the shuffled deck. *)
Definition dealtTo (shuffled : list Card) (seat : PlayerPosition) : list Card :=
  firstn 6 (skipn (6 * getIndex seat) shuffled).

(** Collaborators that offer a trump while the bidding is still open. *)
Definition confusedCollaborators : Collaborators :=
  {| getOptionsForBiddingPhase := fun _ _ => [OptionTrump High];
     getOptionsForTrumpPickingPhase :=
       getOptionsForTrumpPickingPhase sampleCollaborators;
     getOptionsForTrickTakingPhase :=
       getOptionsForTrickTakingPhase sampleCollaborators;
     getOptionsForPartnersBestCardPickingPhase :=
       getOptionsForPartnersBestCardPickingPhase sampleCollaborators;
     chooseOptionForBiddingPhase :=
       chooseOptionForBiddingPhase sampleCollaborators;
     chooseOptionForPickingTrumpPhase :=
       chooseOptionForPickingTrumpPhase sampleCollaborators;
     chooseOptionForPickingPartnersBestCardPhase :=
       chooseOptionForPickingPartnersBestCardPhase sampleCollaborators;
     chooseOptionForTrickTakingPhase :=
       chooseOptionForTrickTakingPhase sampleCollaborators |}.

(** The phase [startGame] builds for a dealer, a shuffled deck and the lobby
    players found at seats 1 to 4. *)
Definition seatPlayer (shuffled : list Card) (lobbyPlayer : LobbyPlayer)
    (seat : PlayerPosition) : Player :=
  mkPlayer (lobby_name lobbyPlayer) (lobby_position lobbyPlayer)
           (dealtTo shuffled seat).

Definition dealtPhase (shuffled : list Card) (dealer : PlayerPosition)
    (lp1 lp2 lp3 lp4 : LobbyPlayer) : BiddingPhase :=
  mkBiddingPhase
    [ mkTeam [seatPlayer shuffled lp1 P1; seatPlayer shuffled lp3 P3] 0;
      mkTeam [seatPlayer shuffled lp2 P2; seatPlayer shuffled lp4 P4] 0 ]
    dealer (getNextPosition dealer) [].

(** A shuffle that returns the nine of clubs 24 times. *)
Definition stuckShuffle (deck : list Card) : list Card :=
  repeat (mkCard Nine Clubs) 24.

(** A shuffle that loses the last card. *)
Definition lossyShuffle (deck : list Card) : list Card := removelast deck.

End Invariants.

(** * Properties *)

Import Utils Engine Statements Samples.

(** ** Bid hierarchy *)

Lemma bid_eqb_eq (a b : BidChoice) : bid_eqb a b = true <-> a = b.
Proof. unfold bid_eqb; destruct (BidChoice_eq_dec a b); split; congruence. Qed.

(** [getHigherBid] is the maximum for the order given by [bidRank]. *)
Lemma getHigherBid_max (a b : BidChoice) :
  getHigherBid a b = Some (if bidRank a <? bidRank b then b else a).
Proof. destruct a, b; reflexivity. Qed.

Lemma isFirstBidGreaterThanSecond_rank (first second : BidChoice) :
  isFirstBidGreaterThanSecond first second = (bidRank second <=? bidRank first).
Proof. destruct first, second; reflexivity. Qed.

(** C10: [getHigherBid] returns a bid on every pair, also on equal arguments:
    [getHigherBid a a] is [a], and [getHigherBid a b] is [a] or [b]. *)
Theorem getHigherBid_total :
  (forall a, getHigherBid a a = Some a) /\
  (forall a b, getHigherBid a b = Some a \/ getHigherBid a b = Some b).
Proof.
  split.
  - intros a. rewrite getHigherBid_max, Nat.ltb_irrefl. reflexivity.
  - intros a b. rewrite getHigherBid_max.
    destruct (bidRank a <? bidRank b); [right | left]; reflexivity.
Qed.

(** C4: [getHigherBids b] keeps, in descending order, the bids that are at
    least [b], not only the strictly higher ones: [b] itself is always in the
    result. *)
Theorem getHigherBids_contains_bid :
  forall b,
    getHigherBids b = filter (fun e => bidRank b <=? bidRank e) bidHierarchy /\
    In b (getHigherBids b) /\
    isFirstBidGreaterThanSecond b b = true.
Proof.
  intros b. split; [| split].
  - unfold getHigherBids. apply filter_ext. intros e.
    apply isFirstBidGreaterThanSecond_rank.
  - unfold getHigherBids. apply filter_In. split.
    + destruct b; simpl; tauto.
    + rewrite isFirstBidGreaterThanSecond_rank. apply Nat.leb_refl.
  - rewrite isFirstBidGreaterThanSecond_rank. apply Nat.leb_refl.
Qed.

Example getHigherBids_Pass :
  getHigherBids Pass =
  [GoingAlone; PartnersBestCard; Bid6; Bid5; Bid4; Bid3; Pass].
Proof. reflexivity. Qed.

(** ** Trump ranking *)

Lemma getSameColorSuit_other (suit : CardSuit) : getSameColorSuit suit <> suit.
Proof. destruct suit; discriminate. Qed.

Lemma getSameColorSuit_involutive (suit : CardSuit) :
  getSameColorSuit (getSameColorSuit suit) = suit.
Proof. destruct suit; reflexivity. Qed.

(** What the function returns in each case; the five-card branch is never
    taken, because its test compares a suit with its own same-colour suit. *)
Lemma ranking_cases (suit : CardSuit) (trump : Trump) :
  getCardsOfSuitWhenTrumpOrderedByHierarchyDesc suit trump =
  match trump with
  | Low => map (fun r => mkCard r suit) [Nine; Ten; Jack; Queen; King; Ace]
  | High => map (fun r => mkCard r suit) [Ace; King; Queen; Jack; Ten; Nine]
  | TrumpSuit t =>
      if CardSuit_eq_dec suit t
      then [ mkCard Jack suit; mkCard Jack (getSameColorSuit suit);
             mkCard Ace suit; mkCard King suit; mkCard Queen suit;
             mkCard Ten suit; mkCard Nine suit ]
      else map (fun r => mkCard r suit) [Ace; King; Queen; Jack; Ten; Nine]
  end.
Proof. destruct trump as [t| |]; [destruct suit, t|..]; reflexivity. Qed.

(** C3: for the same-colour suit of a real trump suit the function returns six
    cards, Ace, King, Queen, Jack, 10, 9, and not the five without the Jack. *)
Theorem ranking_of_same_color_suit_keeps_jack :
  forall t,
    getCardsOfSuitWhenTrumpOrderedByHierarchyDesc
      (getSameColorSuit t) (TrumpSuit t) =
    map (fun r => mkCard r (getSameColorSuit t))
        [Ace; King; Queen; Jack; Ten; Nine].
Proof. intros t; destruct t; reflexivity. Qed.

Example ranking_Spades_under_Clubs :
  getCardsOfSuitWhenTrumpOrderedByHierarchyDesc Spades (TrumpSuit Clubs) =
  [ mkCard Ace Spades; mkCard King Spades; mkCard Queen Spades;
    mkCard Jack Spades; mkCard Ten Spades; mkCard Nine Spades ].
Proof. reflexivity. Qed.

(** C9: under a real trump suit the four ranked lists hold 25 cards, and the
    Jack of the same-colour suit occurs twice: in the trump suit's list and in
    the list of its own suit. *)
Theorem left_bower_ranked_twice :
  forall t,
    occurrencesInRankings (TrumpSuit t) (mkCard Jack (getSameColorSuit t)) = 2 /\
    In (mkCard Jack (getSameColorSuit t))
       (getCardsOfSuitWhenTrumpOrderedByHierarchyDesc t (TrumpSuit t)) /\
    In (mkCard Jack (getSameColorSuit t))
       (getCardsOfSuitWhenTrumpOrderedByHierarchyDesc
          (getSameColorSuit t) (TrumpSuit t)) /\
    length (flat_map
              (fun suit =>
                 getCardsOfSuitWhenTrumpOrderedByHierarchyDesc suit (TrumpSuit t))
              allSuits) = 25.
Proof.
  intros t; destruct t; repeat split; try reflexivity; simpl; tauto.
Qed.

(** ** Option equality through [JSON.stringify] *)

(** The type guards of [chooseOption] recognise exactly the three kinds. *)
Lemma type_guards (a : Option) :
  (isBidChoice a = true <-> exists b, a = OptionBid b) /\
  (isTrump a = true <-> exists t, a = OptionTrump t) /\
  (isCard a = true <-> exists c, a = OptionCard c).
Proof.
  destruct a as [b|t|c]; repeat split;
    try (intros _; eexists; reflexivity);
    try (intros [x Hx]; discriminate Hx);
    try (intros _; reflexivity);
    try (intros H; discriminate H).
  - intros _. destruct b; reflexivity.
  - destruct b; intros H; discriminate H.
  - destruct t as [[]| |]; intros H; discriminate H.
  - intros _. destruct t as [[]| |]; reflexivity.
Qed.

Lemma parse_stringify (o : Option) : parseOption (JSON_stringify o) = Some o.
Proof.
  destruct o as [b|t|[[r s] order]].
  - destruct b; reflexivity.
  - destruct t as [[]| |]; reflexivity.
  - destruct r, s, order; vm_compute; reflexivity.
Qed.

Lemma JSON_stringify_injective (a b : Option) :
  JSON_stringify a = JSON_stringify b -> a = b.
Proof.
  intros H.
  assert (E : parseOption (JSON_stringify a) = parseOption (JSON_stringify b))
    by (rewrite H; reflexivity).
  rewrite !parse_stringify in E. congruence.
Qed.

Section Dispatch.
Variable C : Collaborators.

Lemma isLegalOption_In option phase currentPlayer :
  isLegalOption C option phase currentPlayer = true <->
  In option (getOptions C phase currentPlayer).
Proof.
  unfold isLegalOption. rewrite existsb_exists. split.
  - intros [o [Hin Heq]]. apply String.eqb_eq in Heq.
    apply JSON_stringify_injective in Heq. subst o. exact Hin.
  - intros Hin. exists option. split; [exact Hin | apply String.eqb_refl].
Qed.

Lemma isLegalOption_false option phase currentPlayer :
  ~ In option (getOptions C phase currentPlayer) ->
  isLegalOption C option phase currentPlayer = false.
Proof.
  intros Hnot. destruct (isLegalOption C option phase currentPlayer) eqn:E;
    [| reflexivity].
  apply isLegalOption_In in E. contradiction.
Qed.

Lemma getOptions_guard phase currentPlayer :
  fst (determineIfPhaseIsLegal phase) = false ->
  getOptions C phase currentPlayer = [].
Proof.
  intros H. unfold getOptions. rewrite H. reflexivity.
Qed.

(** C5: on a phase that fails the legality checker, [getOptions] returns the
    empty list for every seat. *)
Theorem getOptions_illegal_phase phase currentPlayer :
  fst (determineIfPhaseIsLegal phase) = false ->
  getOptions C phase currentPlayer = [].
Proof. apply getOptions_guard. Qed.

(** C2: when the option is not among [getOptions phase seat], or the input
    phase fails the legality checker, [chooseOption] returns the input phase
    itself (and warns that the option is illegal). *)
Theorem chooseOption_noop option phase currentPlayer :
  ~ In option (getOptions C phase currentPlayer)
  \/ fst (determineIfPhaseIsLegal phase) = false ->
  chooseOption C option phase currentPlayer
  = (inl phase, ["Option is illegal"]).
Proof.
  intros H.
  assert (E : isLegalOption C option phase currentPlayer = false).
  { apply isLegalOption_false. destruct H as [H | H]; [exact H |].
    rewrite (getOptions_guard _ _ H). intros []. }
  unfold chooseOption. rewrite E. reflexivity.
Qed.

(** C1: once a legal option has been dispatched, a Game Over candidate is
    returned as it is, with no warning and no legality check; any other
    candidate is returned when it passes the legality checker, and the
    input phase is returned (with the checker's message as warning) when it
    fails. *)
Theorem chooseOption_after_dispatch option phase currentPlayer :
  isLegalOption C option phase currentPlayer = true ->
  match getPhase C option phase currentPlayer with
  | inr gameOver =>
      chooseOption C option phase currentPlayer = (inr gameOver, [])
  | inl candidate =>
      chooseOption C option phase currentPlayer =
      if fst (determineIfPhaseIsLegal candidate)
      then (inl candidate, [])
      else (inl phase, [snd (determineIfPhaseIsLegal candidate)])
  end.
Proof.
  intros E. unfold chooseOption. rewrite E. cbn [negb orb truthy].
  destruct (getPhase C option phase currentPlayer) as [candidate | gameOver];
    [| reflexivity].
  destruct (determineIfPhaseIsLegal candidate) as [[|] message]; reflexivity.
Qed.

(** C6: legality is not decided by the value of the option alone.  When
    the enumerated options hold the card object [{rank, suit}] and not the
    object [{suit, rank}] of the same card, the first is accepted and the
    second, equal to it in rank and suit, is refused: [JSON.stringify]
    prints the properties in the order of their creation. *)
Theorem isLegalOption_depends_on_property_order c phase currentPlayer :
  In (OptionCard (cardLiteral c)) (getOptions C phase currentPlayer) ->
  ~ In (OptionCard (mkCardObject c SuitThenRank))
       (getOptions C phase currentPlayer) ->
  structurallyEqual (OptionCard (cardLiteral c))
                    (OptionCard (mkCardObject c SuitThenRank)) = true /\
  isLegalOption C (OptionCard (cardLiteral c)) phase currentPlayer = true /\
  isLegalOption C (OptionCard (mkCardObject c SuitThenRank)) phase
                currentPlayer = false.
Proof.
  intros Hin Hnot. split; [| split].
  - destruct c as [[] []]; reflexivity.
  - apply isLegalOption_In. exact Hin.
  - apply isLegalOption_false. exact Hnot.
Qed.

End Dispatch.

(** ** The legality checker *)

Lemma position_eqb_eq (a b : PlayerPosition) : position_eqb a b = true <-> a = b.
Proof.
  unfold position_eqb; destruct (PlayerPosition_eq_dec a b); split; congruence.
Qed.

Lemma everyFrom_true {A} (f : A -> nat -> bool) (l : list A) : forall i,
  (forall k x, nth_error l k = Some x -> f x (i + k) = true) ->
  everyFrom f i l = true.
Proof.
  induction l as [| x rest IH]; intros i H; simpl; [reflexivity |].
  apply andb_true_intro; split.
  - rewrite <- (Nat.add_0_r i). apply H. reflexivity.
  - apply IH. intros k y Hk. rewrite Nat.add_succ_comm. apply H. exact Hk.
Qed.

Lemma everyFrom_false {A} (f : A -> nat -> bool) (l : list A) : forall i k x,
  nth_error l k = Some x -> f x (i + k) = false -> everyFrom f i l = false.
Proof.
  induction l as [| y rest IH]; intros i k x Hk Hf; [destruct k; discriminate |].
  simpl. destruct k as [| k]; simpl in Hk.
  - injection Hk as ->. rewrite Nat.add_0_r in Hf. rewrite Hf. reflexivity.
  - rewrite Nat.add_succ_r in Hf. rewrite (IH (S i) k x Hk Hf).
    apply andb_false_r.
Qed.

(** The double loop over indices accepts a list without duplicates. *)
Lemma unique_cards_check (cards : list Card) :
  NoDup cards ->
  every (fun firstCard firstIndex =>
    every (fun secondCard secondIndex =>
      if firstIndex =? secondIndex then true
      else negb (rank_eqb (rank firstCard) (rank secondCard))
           || negb (suit_eqb (suit firstCard) (suit secondCard))) cards) cards
  = true.
Proof.
  intros Hnodup. unfold every.
  apply everyFrom_true. intros i x Hx.
  apply everyFrom_true. intros j y Hy. simpl.
  destruct (Nat.eqb_spec i j) as [| Hne]; [reflexivity |].
  destruct x as [r s], y as [r' s']. unfold rank_eqb, suit_eqb. simpl.
  destruct (CardRank_eq_dec r r') as [-> |]; [| reflexivity].
  destruct (CardSuit_eq_dec s s') as [-> |]; [| reflexivity].
  exfalso. apply Hne.
  apply (proj1 (NoDup_nth_error cards) Hnodup).
  - apply nth_error_Some. congruence.
  - congruence.
Qed.

(** and rejects a list in which a card occurs twice. *)
Lemma duplicate_cards_check (cards : list Card) :
  ~ NoDup cards ->
  every (fun firstCard firstIndex =>
    every (fun secondCard secondIndex =>
      if firstIndex =? secondIndex then true
      else negb (rank_eqb (rank firstCard) (rank secondCard))
           || negb (suit_eqb (suit firstCard) (suit secondCard))) cards) cards
  = false.
Proof.
  intros Hdup. unfold every.
  destruct (everyFrom _ 0 cards) eqn:E; [| reflexivity].
  exfalso. apply Hdup. apply NoDup_nth_error. intros i j Hi Hij.
  destruct (Nat.eq_dec i j) as [| Hne]; [assumption |]. exfalso.
  destruct (nth_error cards i) as [x |] eqn:Hx;
    [| apply nth_error_None in Hx; lia].
  symmetry in Hij.
  assert (F : everyFrom
    (fun firstCard firstIndex =>
       everyFrom (fun secondCard secondIndex =>
         if firstIndex =? secondIndex then true
         else negb (rank_eqb (rank firstCard) (rank secondCard))
              || negb (suit_eqb (suit firstCard) (suit secondCard))) 0 cards)
    0 cards = false).
  { apply (everyFrom_false _ cards 0 i x Hx).
    apply (everyFrom_false _ cards 0 j x Hij). simpl.
    destruct (Nat.eqb_spec i j); [contradiction |].
    unfold rank_eqb, suit_eqb.
    destruct (CardRank_eq_dec (rank x) (rank x)); [| contradiction].
    destruct (CardSuit_eq_dec (suit x) (suit x)); [| contradiction].
    reflexivity. }
  congruence.
Qed.

Lemma fold_setAdd (l : list PlayerPosition) : forall s,
  NoDup (s ++ l) -> fold_left setAdd l s = s ++ l.
Proof.
  induction l as [| x rest IH]; intros s H; simpl.
  - rewrite app_nil_r. reflexivity.
  - assert (Hx : existsb (position_eqb x) s = false).
    { destruct (existsb (position_eqb x) s) eqn:E; [| reflexivity].
      apply existsb_exists in E. destruct E as [y [Hy Heq]].
      apply position_eqb_eq in Heq. subst y.
      apply NoDup_remove_2 in H. exfalso. apply H.
      apply in_or_app. left. exact Hy. }
    unfold setAdd at 2. rewrite Hx.
    rewrite IH; rewrite <- app_assoc; [reflexivity | exact H].
Qed.

Lemma newSet_NoDup (l : list PlayerPosition) : NoDup l -> newSet l = l.
Proof. intros H. unfold newSet. rewrite fold_setAdd; [reflexivity | exact H]. Qed.

Lemma fold_left_hands (l : list Player) : forall acc,
  fold_left (fun accumulator currentValue => accumulator ++ hand currentValue)
            l acc
  = acc ++ flat_map hand l.
Proof.
  induction l as [| p rest IH]; intros acc; simpl.
  - rewrite app_nil_r. reflexivity.
  - rewrite IH, app_assoc. reflexivity.
Qed.

Lemma includes_position (x : PlayerPosition) (l : list PlayerPosition) :
  In x l -> existsb (position_eqb x) l = true.
Proof.
  intros H. apply existsb_exists. exists x. split; [exact H |].
  apply position_eqb_eq. reflexivity.
Qed.

Lemma opposite_check (l : list Team) :
  Forall sitsOpposite l ->
  forallb (fun team =>
     let positions := map position (players team) in
     (existsb (position_eqb P1) positions && existsb (position_eqb P3) positions)
     || (existsb (position_eqb P2) positions
         && existsb (position_eqb P4) positions)) l = true.
Proof.
  intros H. apply forallb_forall. intros team Hin.
  rewrite Forall_forall in H. specialize (H team Hin).
  destruct H as [[Ha Hb] | [Ha Hb]]; cbv zeta;
    rewrite (includes_position _ _ Ha), (includes_position _ _ Hb);
    [reflexivity | apply orb_true_r].
Qed.

Lemma distinctOwners_check (trick : list UpCard) :
  NoDup (map owner trick) -> distinctOwners trick = true.
Proof.
  intros H. unfold distinctOwners. rewrite newSet_NoDup by exact H.
  rewrite length_map. apply Nat.eqb_refl.
Qed.

(** A phase that satisfies every invariant tested before the size of the
    current trick is judged on that size alone. *)
Lemma checker_after_earlier_checks (phase : Phase) :
  passesEarlierChecks phase ->
  determineIfPhaseIsLegal phase =
  if currentTrickIsFull phase then (false, currentTrickMessage)
  else (true, noIssueMessage).
Proof.
  intros (Hsit & Hteams & Hhands & Htricks & Hcount & Huniq & Hfour & Hseats
          & Hopp).
  unfold cardsOf, playersOf in *.
  assert (Hopp' := opposite_check _ Hopp). cbv zeta in Hopp'.
  unfold determineIfPhaseIsLegal.
  destruct (teams phase) as [| team0 [| team1 [| extra rest]]] eqn:Et;
    try discriminate Hteams.
  simpl flat_map in *. rewrite app_nil_r in *.
  rewrite fold_left_hands. simpl app.
  rewrite Hopp'.
  rewrite (newSet_NoDup _ Hseats), length_map, Hfour.
  destruct phase as [p | p | p | p]; cbn [isTrickTaking isPickingPartnersBestCard
    negb andb tricksOf currentTrickIsFull flat_map app] in *;
    try rewrite app_nil_r in *.
  - assert (Hsix : forallb (fun player => length (hand player) =? 6)
                     (players team0 ++ players team1) = true).
    { apply forallb_forall. intros x Hx. rewrite Forall_forall in Hhands.
      apply Nat.eqb_eq. apply Hhands. exact Hx. }
    rewrite Hsix, Hcount, (unique_cards_check _ Huniq). reflexivity.
  - assert (Hsix : forallb (fun player => length (hand player) =? 6)
                     (players team0 ++ players team1) = true).
    { apply forallb_forall. intros x Hx. rewrite Forall_forall in Hhands.
      apply Nat.eqb_eq. apply Hhands. exact Hx. }
    rewrite Hsix, Hcount, (unique_cards_check _ Huniq). reflexivity.
  - rewrite Hcount, (unique_cards_check _ Huniq). reflexivity.
  - assert (Hs : match playerSittingOut p with
                 | Some sittingOut => position_eqb sittingOut (cardPosition p)
                 | None => false
                 end = false).
    { destruct (playerSittingOut p) as [s |]; [| reflexivity].
      destruct (position_eqb s (cardPosition p)) eqn:E; [| reflexivity].
      apply position_eqb_eq in E. congruence. }
    rewrite Hs.
    apply Forall_app in Htricks. destruct Htricks as [Hfin Hcur].
    assert (Hf : forallb distinctOwners (finishedTricks p) = true).
    { apply forallb_forall. intros t Ht. rewrite Forall_forall in Hfin.
      apply distinctOwners_check. apply Hfin. exact Ht. }
    rewrite Hf. inversion Hcur as [| ? ? Hc _]; subst.
    rewrite (distinctOwners_check _ Hc).
    rewrite (flat_map_app _ (finishedTricks p) [currentTrick p]) in Hcount, Huniq.
    cbn [flat_map] in Hcount, Huniq.
    rewrite app_nil_r in Hcount, Huniq.
    cbn [negb andb].
    rewrite Hcount, (unique_cards_check _ Huniq). reflexivity.
Qed.




(** ** Dealing and [startGame] *)

Lemma randomNumberBothInclusive_0_3 (random : Q) :
  (0 <= random)%Q -> (random < 1)%Q ->
  (0 <= randomNumberBothInclusive random 0 3 < 4)%Z.
Proof.
  intros Hlow Hhigh. unfold randomNumberBothInclusive.
  change (Qceiling 0) with 0%Z. change (Qfloor 3) with 3%Z.
  change (3 - 0 + 1)%Z with 4%Z. rewrite Z.add_0_r.
  split.
  - change 0%Z with (Qfloor 0). apply Qfloor_resp_le.
    apply Qmult_le_0_compat; [exact Hlow | discriminate].
  - assert (Hfloor := Qfloor_le (random * inject_Z 4)).
    assert (Hlt : (random * inject_Z 4 < inject_Z 4)%Q).
    { setoid_replace (inject_Z 4) with (1 * inject_Z 4)%Q at 2 by ring.
      apply Qmult_lt_compat_r; [reflexivity | exact Hhigh]. }
    rewrite Zlt_Qlt. eapply Qle_lt_trans; eassumption.
Qed.

Lemma randomPlayerPosition_defined (random : Q) :
  (0 <= random)%Q -> (random < 1)%Q ->
  exists dealer, randomPlayerPosition random = Some dealer.
Proof.
  intros Hlow Hhigh. unfold randomPlayerPosition.
  destruct (randomNumberBothInclusive_0_3 random Hlow Hhigh) as [H0 H4].
  destruct (Z.ltb_spec (randomNumberBothInclusive random 0 3) 0); [lia |].
  assert (Hn : Z.to_nat (randomNumberBothInclusive random 0 3) < 4) by lia.
  destruct (Z.to_nat (randomNumberBothInclusive random 0 3))
    as [| [| [| [| n]]]]; simpl; try (eexists; reflexivity); lia.
Qed.

Lemma deal_of_24 (shuffle : list Card -> list Card) :
  length (shuffle getAllCards) = 24 ->
  exists h0 h1 h2 h3,
    shuffleAndDealFourHands shuffle = Some [h0; h1; h2; h3] /\
    shuffle getAllCards = h0 ++ h1 ++ h2 ++ h3 /\
    length h0 = 6 /\ length h1 = 6 /\ length h2 = 6 /\ length h3 = 6.
Proof.
  intros Hlen. unfold shuffleAndDealFourHands.
  destruct (shuffle getAllCards) as [| c l]; [discriminate |].
  do 23 (destruct l as [| ? l]; [discriminate |]).
  destruct l; [| discriminate].
  do 4 eexists. repeat split; reflexivity.
Qed.

Lemma seat_lookup (players : list LobbyPlayer) (seat : PlayerPosition) :
  In seat (map lobby_position players) ->
  exists lobbyPlayer,
    hd_error (filter (fun player => position_eqb (lobby_position player) seat)
                     players) = Some lobbyPlayer /\
    lobby_position lobbyPlayer = seat.
Proof.
  induction players as [| p rest IH]; intros Hin; [destruct Hin |].
  simpl. destruct (position_eqb (lobby_position p) seat) eqn:E.
  - exists p. split; [reflexivity | apply position_eqb_eq; exact E].
  - apply IH. destruct Hin as [Heq | Hin]; [| exact Hin].
    apply position_eqb_eq in Heq. congruence.
Qed.

Lemma getAllCards_NoDup : NoDup getAllCards.
Proof.
  apply (NoDup_count_occ' Card_eq_dec). intros c Hin.
  repeat (destruct Hin as [<- | Hin]; [reflexivity |]). destruct Hin.
Qed.

(** C8: for four lobby players seated at 1, 2, 3 and 4, a random draw in
    [0, 1) and a shuffle that permutes the deck, [startGame] returns a Bidding
    phase: the dealer is a seat, the first bidder is the seat after the
    dealer, there are no bids, the teams are seats 1 and 3 and seats 2 and 4
    with 0 points each, and every player holds six cards. *)
Theorem startGame_deals
    (shuffle : list Card -> list Card) (random : Q)
    (players : list LobbyPlayer) :
  Permutation (map lobby_position players) [P1; P2; P3; P4] ->
  (0 <= random)%Q -> (random < 1)%Q ->
  Permutation getAllCards (shuffle getAllCards) ->
  exists phase,
    startGame shuffle random players = Some (inl phase) /\ isFreshDeal phase.
Proof.
  intros Hseats Hlow Hhigh Hshuffle.
  destruct (randomPlayerPosition_defined random Hlow Hhigh) as [dealer Hdealer].
  assert (Hlen : length (shuffle getAllCards) = 24).
  { rewrite <- (Permutation_length Hshuffle). reflexivity. }
  destruct (deal_of_24 shuffle Hlen)
    as (h0 & h1 & h2 & h3 & Hdeal & Hdeck & L0 & L1 & L2 & L3).
  assert (Hseat : forall seat, In seat (map lobby_position players)).
  { intros seat. apply (Permutation_in _ (Permutation_sym Hseats)).
    destruct seat; simpl; tauto. }
  destruct (seat_lookup players P1 (Hseat P1)) as (lp1 & F1 & S1).
  destruct (seat_lookup players P2 (Hseat P2)) as (lp2 & F2 & S2).
  destruct (seat_lookup players P3 (Hseat P3)) as (lp3 & F3 & S3).
  destruct (seat_lookup players P4 (Hseat P4)) as (lp4 & F4 & S4).
  unfold startGame. rewrite Hdealer, Hdeal. cbn [bindOption].
  rewrite F1, F2, F3, F4.
  cbn [bindOption getHandSliceViaPosition getIndex nth_error].
  rewrite S1, S2, S3, S4.
  rewrite checker_after_earlier_checks.
  - cbn [currentTrickIsFull fst]. eexists. split; [reflexivity |].
    unfold isFreshDeal. cbn. repeat split; try assumption.
    + destruct dealer; tauto.
    + do 4 eexists. repeat split; cbn; assumption.
  - unfold passesEarlierChecks, cardsOf, playersOf.
    cbn [teams bidding_teams tricksOf flat_map app hand
         map position length].
    repeat split.
    + cbn. repeat constructor; assumption.
    + constructor.
    + cbn. rewrite !app_nil_r, !length_app. lia.
    + cbn. rewrite !app_nil_r.
      apply (Permutation_NoDup (l := h0 ++ h1 ++ h2 ++ h3)).
      * apply Permutation_app_head. rewrite !app_assoc.
        apply Permutation_app_tail. apply Permutation_app_comm.
      * rewrite <- Hdeck. apply (Permutation_NoDup Hshuffle).
        exact getAllCards_NoDup.
    + cbn. repeat constructor; simpl; intuition discriminate.
    + cbn. repeat constructor; unfold sitsOpposite; simpl; tauto.
Qed.

(** ** The properties at concrete inputs *)

Example sample_phases_legal :
  map determineIfPhaseIsLegal
      [sampleBidding; samplePickingTrump; samplePickingBest;
       TrickTaking sampleTrickTaking]
  = repeat (true, noIssueMessage) 4.
Proof. reflexivity. Qed.

Lemma chooseOption_after_dispatch_witness :
  match getPhase sampleCollaborators (OptionBid Bid4) sampleBidding P2 with
  | inr gameOver =>
      chooseOption sampleCollaborators (OptionBid Bid4) sampleBidding P2
      = (inr gameOver, [])
  | inl candidate =>
      chooseOption sampleCollaborators (OptionBid Bid4) sampleBidding P2 =
      if fst (determineIfPhaseIsLegal candidate)
      then (inl candidate, [])
      else (inl sampleBidding, [snd (determineIfPhaseIsLegal candidate)])
  end.
Proof.
  apply (chooseOption_after_dispatch sampleCollaborators (OptionBid Bid4)
           sampleBidding P2).
  vm_compute. reflexivity.
Defined.

(** A played card ends the game: the Game Over phase comes back unchecked. *)
Example chooseOption_game_over :
  chooseOption sampleCollaborators (OptionCard (cardLiteral nineOfDiamonds))
               (TrickTaking sampleTrickTaking) P2
  = (inr (mkGameOverPhase (nth 0 sampleTeams (mkTeam [] 0))
                          (nth 1 sampleTeams (mkTeam [] 0))), []).
Proof. reflexivity. Qed.

(** The faulty collaborator loses a card: the input phase comes back. *)
Example chooseOption_rejects_candidate :
  chooseOption sampleCollaborators
               (OptionCard (cardLiteral (mkCard Nine Spades)))
               samplePickingBest P4
  = (inl samplePickingBest, [cardCountMessage]).
Proof. reflexivity. Qed.

Lemma chooseOption_noop_witness :
  chooseOption sampleCollaborators (OptionBid Pass) emptyHanded P2
  = (inl emptyHanded, ["Option is illegal"]).
Proof.
  apply (chooseOption_noop sampleCollaborators (OptionBid Pass) emptyHanded P2).
  right. vm_compute. reflexivity.
Defined.

Example chooseOption_noop_wrong_seat :
  chooseOption sampleCollaborators (OptionBid Bid4) sampleBidding P3
  = (inl sampleBidding, ["Option is illegal"]).
Proof. reflexivity. Qed.

Lemma getOptions_illegal_phase_witness :
  getOptions sampleCollaborators emptyHanded P2 = [].
Proof.
  apply (getOptions_illegal_phase sampleCollaborators emptyHanded P2).
  vm_compute. reflexivity.
Defined.

(** The hand of seat 2 offers the object [{rank: 9, suit: Diamonds}]; the
    object [{suit: Diamonds, rank: 9}] has the same rank and suit and is
    refused. *)
Lemma isLegalOption_depends_on_property_order_witness :
  structurallyEqual (OptionCard (cardLiteral nineOfDiamonds))
                    (OptionCard (mkCardObject nineOfDiamonds SuitThenRank))
  = true /\
  isLegalOption sampleCollaborators (OptionCard (cardLiteral nineOfDiamonds))
                (TrickTaking sampleTrickTaking) P2 = true /\
  isLegalOption sampleCollaborators
                (OptionCard (mkCardObject nineOfDiamonds SuitThenRank))
                (TrickTaking sampleTrickTaking) P2 = false.
Proof.
  apply (isLegalOption_depends_on_property_order sampleCollaborators
           nineOfDiamonds (TrickTaking sampleTrickTaking) P2).
  - vm_compute. left. reflexivity.
  - vm_compute. intros H.
    repeat (destruct H as [H | H]; [discriminate H |]). exact H.
Defined.




Example sitting_out_conflict_sample :
  determineIfPhaseIsLegal (TrickTaking sittingOutToPlay)
  = (false, sittingOutMessage).
Proof. reflexivity. Qed.

Lemma startGame_deals_witness :
  exists phase,
    startGame (@rev Card) (3 # 4) sampleLobby = Some (inl phase) /\
    isFreshDeal phase.
Proof.
  apply (startGame_deals (@rev Card) (3 # 4) sampleLobby).
  - apply Permutation_refl.
  - discriminate.
  - reflexivity.
  - apply Permutation_rev.
Defined.

(** * Further properties *)

Import Invariants.

(** ** Seats, bids and suits *)

(** X1: the seats form a ring of four: four steps of [getNextPosition] lead
    back to the start, and one, two or three steps do not. *)
Theorem getNextPosition_ring (seat : PlayerPosition) :
  getNextPosition (getNextPosition (getNextPosition (getNextPosition seat)))
  = seat /\
  getNextPosition seat <> seat /\
  getNextPosition (getNextPosition seat) <> seat /\
  getNextPosition (getNextPosition (getNextPosition seat)) <> seat.
Proof. destruct seat; repeat split; discriminate. Qed.

(** X2: the partner sits two seats further, is never the seat itself, and the
    partner of the partner is the seat; two players at a seat and at its
    partner's seat form a team that sits opposite. *)
Theorem getPositionOfPartner_opposite (seat : PlayerPosition) :
  getPositionOfPartner seat = getNextPosition (getNextPosition seat) /\
  getPositionOfPartner seat <> seat /\
  getPositionOfPartner (getPositionOfPartner seat) = seat /\
  forall name1 hand1 name2 hand2 score,
    sitsOpposite
      (mkTeam [ mkPlayer name1 seat hand1;
                mkPlayer name2 (getPositionOfPartner seat) hand2 ] score).
Proof.
  destruct seat; repeat split; try discriminate; intros;
    unfold sitsOpposite; simpl; tauto.
Qed.

(** X3: [getHigherBid] does not depend on the order of its arguments, and
    taking the higher of three bids does not depend on the grouping. *)
Theorem getHigherBid_comm_assoc (a b c : BidChoice) :
  getHigherBid a b = getHigherBid b a /\
  bindOption (getHigherBid a b) (fun ab => getHigherBid ab c)
  = bindOption (getHigherBid b c) (fun bc => getHigherBid a bc).
Proof. destruct a, b, c; split; reflexivity. Qed.

(** X4: Going Alone wins against every bid and Pass loses against every bid,
    on either side. *)
Theorem getHigherBid_extremes (x : BidChoice) :
  getHigherBid GoingAlone x = Some GoingAlone /\
  getHigherBid x GoingAlone = Some GoingAlone /\
  getHigherBid Pass x = Some x /\
  getHigherBid x Pass = Some x.
Proof. destruct x; repeat split. Qed.

(** X5: [getHigherBids b] is never empty: it starts with Going Alone, ends
    with [b] and has one entry for each bid from [b] upwards. *)
Theorem getHigherBids_shape (b : BidChoice) :
  hd_error (getHigherBids b) = Some GoingAlone /\
  last (getHigherBids b) GoingAlone = b /\
  length (getHigherBids b) = 7 - bidRank b.
Proof. destruct b; repeat split. Qed.

(** X6: raising the bid only removes entries from the end: for a bid [b] at
    least as high as [a], [getHigherBids b] is a prefix of [getHigherBids a]. *)
Theorem getHigherBids_prefix (a b : BidChoice) :
  bidRank a <= bidRank b ->
  exists lower, getHigherBids a = getHigherBids b ++ lower.
Proof.
  intros H.
  exists (skipn (length (getHigherBids b)) (getHigherBids a)).
  destruct a, b; simpl in H; try lia; reflexivity.
Qed.

Lemma getHigherBids_prefix_witness :
  exists lower, getHigherBids Bid3 = getHigherBids Bid6 ++ lower.
Proof. apply (getHigherBids_prefix Bid3 Bid6). simpl. lia. Defined.

(** X7: [getSameColorSuit] pairs Clubs with Spades and Diamonds with Hearts:
    it never returns its argument, and applied twice it returns it. *)
Theorem getSameColorSuit_pairs (suit : CardSuit) :
  getSameColorSuit suit <> suit /\
  getSameColorSuit (getSameColorSuit suit) = suit /\
  (In suit [Clubs; Spades] <-> In (getSameColorSuit suit) [Clubs; Spades]).
Proof.
  destruct suit; repeat split; try discriminate; simpl; intuition discriminate.
Qed.

(** ** Rankings and the deck *)

Lemma count_in_deck (c : Card) : count_occ Card_eq_dec getAllCards c = 1.
Proof. destruct c as [[] []]; reflexivity. Qed.

(** X9: every card the type allows is in [getAllCards] exactly once: the deck
    has 24 cards, no duplicates, and misses none. *)
Theorem getAllCards_complete :
  length getAllCards = 24 /\ NoDup getAllCards /\ forall c, In c getAllCards.
Proof.
  split; [reflexivity |]. split; [exact getAllCards_NoDup |].
  intros c. apply (count_occ_In Card_eq_dec). rewrite count_in_deck. lia.
Qed.

(** X10: without a trump suit the ranking of High is the ranking of Low
    reversed, and the four rankings together are the deck, each card once. *)
Theorem no_trump_rankings_partition (suit : CardSuit) (trump : Trump) :
  trump = High \/ trump = Low ->
  getCardsOfSuitWhenTrumpOrderedByHierarchyDesc suit High
  = rev (getCardsOfSuitWhenTrumpOrderedByHierarchyDesc suit Low) /\
  (forall c, occurrencesInRankings trump c = 1) /\
  Permutation
    (flat_map (fun s => getCardsOfSuitWhenTrumpOrderedByHierarchyDesc s trump)
              allSuits)
    getAllCards.
Proof.
  intros H. split; [reflexivity |].
  assert (Hocc : forall c, occurrencesInRankings trump c = 1).
  { intros [[] []]; destruct H as [-> | ->]; reflexivity. }
  split; [exact Hocc |].
  apply (Permutation_count_occ Card_eq_dec). intros c.
  rewrite count_in_deck. apply Hocc.
Qed.

Lemma no_trump_rankings_partition_witness :
  getCardsOfSuitWhenTrumpOrderedByHierarchyDesc Hearts High
  = rev (getCardsOfSuitWhenTrumpOrderedByHierarchyDesc Hearts Low) /\
  (forall c, occurrencesInRankings High c = 1) /\
  Permutation
    (flat_map (fun s => getCardsOfSuitWhenTrumpOrderedByHierarchyDesc s High)
              allSuits)
    getAllCards.
Proof. apply (no_trump_rankings_partition Hearts High). left. reflexivity. Defined.

(** X11: every ranking is free of duplicates, and a card ranked under a suit
    has that suit, except the Jack of the same colour in the ranking of the
    trump suit. *)
Theorem ranking_suits (s : CardSuit) (trump : Trump) :
  NoDup (getCardsOfSuitWhenTrumpOrderedByHierarchyDesc s trump) /\
  forall c,
    In c (getCardsOfSuitWhenTrumpOrderedByHierarchyDesc s trump) ->
    suit c = s \/
    (trump = TrumpSuit s /\ c = mkCard Jack (getSameColorSuit s)).
Proof.
  split.
  - apply (NoDup_count_occ' Card_eq_dec). intros c Hin.
    destruct trump as [[] | |], s; cbv in Hin;
      repeat (destruct Hin as [<- | Hin]; [reflexivity |]); destruct Hin.
  - intros c Hin.
    destruct trump as [[] | |], s; cbv in Hin;
      repeat (destruct Hin as [<- | Hin]; [simpl; tauto |]); destruct Hin.
Qed.

(** ** Random draws *)

(** X13: [randomPlayerPosition] yields a seat exactly for draws in [0, 1);
    any other draw indexes outside the array and yields [undefined]. *)
Theorem randomPlayerPosition_undefined (random : Q) :
  randomPlayerPosition random = None <-> ~ (0 <= random /\ random < 1)%Q.
Proof.
  split.
  - intros Hnone [Hlow Hhigh].
    destruct (randomPlayerPosition_defined random Hlow Hhigh) as [d Hd].
    congruence.
  - intros Hout. unfold randomPlayerPosition, randomNumberBothInclusive.
    change (Qceiling 0) with 0%Z. change (Qfloor 3) with 3%Z.
    change (3 - 0 + 1)%Z with 4%Z. rewrite Z.add_0_r.
    destruct (Qlt_le_dec random 0) as [Hneg | Hpos].
    + assert (H : (Qfloor (random * inject_Z 4) < 0)%Z).
      { rewrite Zlt_Qlt. eapply Qle_lt_trans; [apply Qfloor_le |].
        setoid_replace (inject_Z 0) with (0 * inject_Z 4)%Q by ring.
        apply Qmult_lt_compat_r; [reflexivity | exact Hneg]. }
      apply Z.ltb_lt in H. rewrite H. reflexivity.
    + destruct (Qlt_le_dec random 1) as [Hlt | Hge]; [tauto |].
      assert (H : (4 <= Qfloor (random * inject_Z 4))%Z).
      { change 4%Z with (Qfloor (inject_Z 4)) at 1. apply Qfloor_resp_le.
        setoid_replace (inject_Z 4) with (1 * inject_Z 4)%Q at 1 by ring.
        apply Qmult_le_compat_r; [exact Hge | discriminate]. }
      destruct (Z.ltb_spec (Qfloor (random * inject_Z 4)) 0); [lia |].
      apply nth_error_None. cbn [length]. lia.
Qed.

(** X14: every seat can be drawn: the draw [k / 4] yields the seat of index
    [k]. *)
Theorem randomPlayerPosition_reaches (seat : PlayerPosition) :
  (0 <= Z.of_nat (getIndex seat) # 4)%Q /\
  (Z.of_nat (getIndex seat) # 4 < 1)%Q /\
  randomPlayerPosition (Z.of_nat (getIndex seat) # 4) = Some seat.
Proof. destruct seat; repeat split; discriminate. Qed.

(** ** Dealing *)

Lemma sixFrom_enough (a : list Card) (i : nat) :
  i + 6 <= length a -> sixFrom a i = Some (firstn 6 (skipn i a)).
Proof.
  intros H. unfold sixFrom.
  rewrite <- (Nat.add_0_r i) at 1.
  rewrite <- !nth_error_skipn.
  assert (Hlen : 6 <= length (skipn i a)) by (rewrite length_skipn; lia).
  destruct (skipn i a) as [| c0 [| c1 [| c2 [| c3 [| c4 [| c5 rest]]]]]];
    simpl in Hlen; try lia.
  reflexivity.
Qed.

Lemma sixFrom_short (a : list Card) (i : nat) :
  length a < i + 6 -> sixFrom a i = None.
Proof.
  intros H. unfold sixFrom.
  assert (E : nth_error a (i + 5) = None) by (apply nth_error_None; lia).
  rewrite E.
  destruct (nth_error a i), (nth_error a (i + 1)), (nth_error a (i + 2)),
    (nth_error a (i + 3)), (nth_error a (i + 4)); reflexivity.
Qed.

Lemma deal_enough (shuffle : list Card -> list Card) :
  24 <= length (shuffle getAllCards) ->
  shuffleAndDealFourHands shuffle
  = Some (map (dealtTo (shuffle getAllCards)) allPositions).
Proof.
  intros H. unfold shuffleAndDealFourHands.
  rewrite !sixFrom_enough by lia. reflexivity.
Qed.

(** X15: the deal fails exactly when the shuffle returns fewer than 24 cards:
    some hand would then hold an [undefined]. *)
Theorem shuffleAndDealFourHands_short (shuffle : list Card -> list Card) :
  shuffleAndDealFourHands shuffle = None <->
  length (shuffle getAllCards) < 24.
Proof.
  split.
  - intros Hnone.
    destruct (Nat.lt_ge_cases (length (shuffle getAllCards)) 24) as [| Hge];
      [assumption |].
    rewrite (deal_enough shuffle Hge) in Hnone. discriminate.
  - intros Hshort. unfold shuffleAndDealFourHands. cbv zeta.
    rewrite (sixFrom_short (shuffle getAllCards) 18) by lia.
    destruct (sixFrom (shuffle getAllCards) 0),
      (sixFrom (shuffle getAllCards) 6), (sixFrom (shuffle getAllCards) 12);
      reflexivity.
Qed.

(** X16: when the shuffle returns at least 24 cards, the seat of index [k]
    is dealt the cards [6k .. 6k+5] of the shuffled deck, and the four hands
    together are its first 24 cards; later cards are dropped. *)
Theorem deal_by_seat (shuffle : list Card -> list Card) :
  24 <= length (shuffle getAllCards) ->
  exists hands,
    shuffleAndDealFourHands shuffle = Some hands /\
    (forall seat,
       getHandSliceViaPosition seat hands
       = Some (dealtTo (shuffle getAllCards) seat)) /\
    (forall seat, length (dealtTo (shuffle getAllCards) seat) = 6) /\
    concat hands = firstn 24 (shuffle getAllCards).
Proof.
  intros H. exists (map (dealtTo (shuffle getAllCards)) allPositions).
  split; [apply deal_enough; exact H |]. split; [| split].
  - intros seat. destruct seat; reflexivity.
  - intros seat. unfold dealtTo. rewrite length_firstn, length_skipn.
    destruct seat; simpl getIndex; lia.
  - destruct (shuffle getAllCards) as [| c l]; [simpl in H; lia |].
    do 23 (destruct l as [| ? l]; [simpl in H; lia |]).
    reflexivity.
Qed.

Lemma deal_by_seat_witness :
  exists hands,
    shuffleAndDealFourHands (fun deck => deck ++ deck) = Some hands /\
    (forall seat,
       getHandSliceViaPosition seat hands
       = Some (dealtTo (getAllCards ++ getAllCards) seat)) /\
    (forall seat, length (dealtTo (getAllCards ++ getAllCards) seat) = 6) /\
    concat hands = firstn 24 (getAllCards ++ getAllCards).
Proof.
  apply (deal_by_seat (fun deck => deck ++ deck)). simpl. lia.
Defined.

(** X17: when the shuffle permutes the deck, the four hands hold six cards
    each, no card is in two hands or twice in one, and together the hands are
    the deck. *)
Theorem deal_partitions_deck (shuffle : list Card -> list Card) :
  Permutation getAllCards (shuffle getAllCards) ->
  exists hands,
    shuffleAndDealFourHands shuffle = Some hands /\
    length hands = 4 /\
    Forall (fun h => length h = 6) hands /\
    NoDup (concat hands) /\
    Permutation (concat hands) getAllCards.
Proof.
  intros Hperm.
  assert (Hlen : length (shuffle getAllCards) = 24).
  { rewrite <- (Permutation_length Hperm). reflexivity. }
  destruct (deal_of_24 shuffle Hlen)
    as (h0 & h1 & h2 & h3 & Hdeal & Hdeck & L0 & L1 & L2 & L3).
  exists [h0; h1; h2; h3]. split; [exact Hdeal |]. split; [reflexivity |].
  split; [repeat constructor; assumption |].
  assert (E : concat [h0; h1; h2; h3] = shuffle getAllCards).
  { simpl. rewrite app_nil_r. symmetry. exact Hdeck. }
  rewrite E. split.
  - apply (Permutation_NoDup Hperm). exact getAllCards_NoDup.
  - apply Permutation_sym. exact Hperm.
Qed.

Lemma deal_partitions_deck_witness :
  exists hands,
    shuffleAndDealFourHands (@rev Card) = Some hands /\
    length hands = 4 /\
    Forall (fun h => length h = 6) hands /\
    NoDup (concat hands) /\
    Permutation (concat hands) getAllCards.
Proof. apply (deal_partitions_deck (@rev Card)). apply Permutation_rev. Defined.

(** ** What the legality checker accepts *)

Lemma fold_setAdd_spec (l : list PlayerPosition) : forall s,
  NoDup s ->
  NoDup (fold_left setAdd l s) /\
  (forall x, In x (fold_left setAdd l s) <-> In x s \/ In x l).
Proof.
  induction l as [| y rest IH]; intros s Hs; simpl.
  - split; [exact Hs | intros x; tauto].
  - unfold setAdd at 2 4. destruct (existsb (position_eqb y) s) eqn:E.
    + destruct (IH s Hs) as [Hn Hin]. split; [exact Hn |].
      intros x. rewrite Hin. apply existsb_exists in E.
      destruct E as [z [Hz Ez]]. apply position_eqb_eq in Ez. subst z.
      intuition (subst; auto).
    + assert (Hy : ~ In y s).
      { intros Hy. rewrite (includes_position _ _ Hy) in E. discriminate. }
      assert (Hs' : NoDup (s ++ [y])).
      { apply NoDup_app; [exact Hs | repeat constructor; intros [] |].
        intros a Ha [<- | []]. exact (Hy Ha). }
      destruct (IH (s ++ [y]) Hs') as [Hn Hin]. split; [exact Hn |].
      intros x. rewrite Hin, in_app_iff. simpl. tauto.
Qed.

Lemma fold_setAdd_length (l : list PlayerPosition) : forall s,
  length (fold_left setAdd l s) <= length s + length l.
Proof.
  induction l as [| y rest IH]; intros s; simpl; [lia |].
  unfold setAdd at 2. destruct (existsb (position_eqb y) s).
  - specialize (IH s). lia.
  - specialize (IH (s ++ [y])). rewrite length_app in IH. simpl in IH. lia.
Qed.

Lemma fold_setAdd_full (l : list PlayerPosition) : forall s,
  NoDup s ->
  length (fold_left setAdd l s) = length s + length l ->
  NoDup (s ++ l).
Proof.
  induction l as [| y rest IH]; intros s Hs Hlen; simpl in *.
  - rewrite app_nil_r. exact Hs.
  - unfold setAdd at 2 in Hlen. destruct (existsb (position_eqb y) s) eqn:E.
    + assert (Hle := fold_setAdd_length rest s). lia.
    + assert (Hy : ~ In y s).
      { intros Hy. rewrite (includes_position _ _ Hy) in E. discriminate. }
      assert (Hs' : NoDup (s ++ [y])).
      { apply NoDup_app; [exact Hs | repeat constructor; intros [] |].
        intros a Ha [<- | []]. exact (Hy Ha). }
      specialize (IH (s ++ [y]) Hs'). rewrite <- app_assoc in IH. apply IH.
      rewrite length_app. simpl. lia.
Qed.

Lemma distinctOwners_NoDup (trick : list UpCard) :
  distinctOwners trick = true <-> NoDup (map owner trick).
Proof.
  split; [| apply distinctOwners_check].
  unfold distinctOwners, newSet. intros H. apply Nat.eqb_eq in H.
  apply (fold_setAdd_full (map owner trick) []); [constructor |].
  rewrite H, length_map. reflexivity.
Qed.

Lemma seats_check (l : list PlayerPosition) :
  length (newSet l) = 4 <-> forall seat, In seat l.
Proof.
  destruct (fold_setAdd_spec l [] (NoDup_nil _)) as [Hn Hin].
  fold (newSet l) in Hn, Hin.
  assert (Hall : NoDup allPositions).
  { repeat constructor; simpl; intuition discriminate. }
  assert (Hsub : incl (newSet l) allPositions).
  { intros x _. destruct x; simpl; tauto. }
  split.
  - intros Hlen seat.
    assert (Hincl : incl allPositions (newSet l)).
    { apply NoDup_length_incl; [exact Hn | rewrite Hlen; simpl; lia | exact Hsub]. }
    destruct (proj1 (Hin seat)) as [[] | H]; [| exact H].
    apply Hincl. destruct seat; simpl; tauto.
  - intros Hseats.
    assert (Hincl : incl allPositions (newSet l)).
    { intros x _. apply Hin. right. apply Hseats. }
    apply Nat.le_antisymm.
    + apply (NoDup_incl_length Hn Hsub).
    + apply (NoDup_incl_length Hall Hincl).
Qed.

Lemma unique_cards_NoDup (cards : list Card) :
  every (fun firstCard firstIndex =>
    every (fun secondCard secondIndex =>
      if firstIndex =? secondIndex then true
      else negb (rank_eqb (rank firstCard) (rank secondCard))
           || negb (suit_eqb (suit firstCard) (suit secondCard))) cards) cards
  = true <-> NoDup cards.
Proof.
  split; [| apply unique_cards_check].
  intros H. destruct (ListDec.NoDup_dec Card_eq_dec cards) as [| Hdup];
    [assumption |].
  rewrite (duplicate_cards_check cards Hdup) in H. discriminate.
Qed.

Lemma opposite_check_iff (l : list Team) :
  forallb (fun team =>
     (existsb (position_eqb P1) (map position (players team))
      && existsb (position_eqb P3) (map position (players team)))
     || (existsb (position_eqb P2) (map position (players team))
         && existsb (position_eqb P4) (map position (players team)))) l = true
  <-> Forall sitsOpposite l.
Proof.
  split.
  - intros H. apply Forall_forall. intros team Hin.
    rewrite forallb_forall in H. specialize (H team Hin).
    unfold sitsOpposite. cbv zeta.
    assert (E : forall x l', existsb (position_eqb x) l' = true -> In x l').
    { intros x l' Hx. apply existsb_exists in Hx. destruct Hx as [y [Hy Hxy]].
      apply position_eqb_eq in Hxy. subst. exact Hy. }
    apply orb_true_iff in H. destruct H as [H | H];
      apply andb_true_iff in H; destruct H as [Ha Hb]; [left | right];
      split; apply E; assumption.
  - intros H. assert (H' := opposite_check l H). exact H'.
Qed.

Lemma six_cards_check (l : list Player) :
  forallb (fun player => length (hand player) =? 6) l = true <->
  Forall (fun player => length (hand player) = 6) l.
Proof.
  rewrite forallb_forall, Forall_forall.
  split; intros H x Hx; apply Nat.eqb_eq; apply H; exact Hx.
Qed.

Ltac split_check H E :=
  match type of H with
  | context [if ?b then _ else _] =>
      destruct b eqn:E; [cbn [fst] in H; discriminate H |]
  end.

Lemma checker_accepts_consistent (phase : Phase) :
  fst (determineIfPhaseIsLegal phase) = true -> isConsistent phase.
Proof.
  intros H. unfold determineIfPhaseIsLegal in H.
  unfold isConsistent, cardsOf, playersOf.
  destruct (teams phase) as [| team0 [| team1 [| extra rest]]] eqn:Et;
    try (destruct phase as [p | p | p | p];
         try destruct (playerSittingOut p) as [s |];
         try destruct (position_eqb s (cardPosition p));
         discriminate H).
  rewrite fold_left_hands in H. cbn [app flat_map] in *.
  rewrite app_nil_r.
  split_check H Esit. split_check H Ehand. split_check H Eowner.
  split_check H Ecount. split_check H Euniq. split_check H Eseat.
  split_check H Eopp. split_check H Efull.
  apply negb_false_iff in Eowner, Ecount, Euniq, Eseat, Eopp.
  apply Nat.eqb_eq in Ecount, Eseat.
  apply unique_cards_NoDup in Euniq.
  assert (Hseat := proj1 (seats_check _) Eseat).
  apply opposite_check_iff in Eopp.
  destruct phase as [p | p | p | p];
    cbn [isTrickTaking isPickingPartnersBestCard negb andb tricksOf
         currentTrickIsFull flat_map] in *;
    try rewrite app_nil_r in *.
  - apply negb_false_iff, six_cards_check in Ehand. repeat split; auto.
  - apply negb_false_iff, six_cards_check in Ehand. repeat split; auto.
  - repeat split; auto.
  - apply andb_true_iff in Eowner. destruct Eowner as [Hfin Hcur].
    rewrite (flat_map_app _ (finishedTricks p) [currentTrick p]).
    cbn [flat_map]. rewrite app_nil_r.
    repeat split; auto.
    + destruct (playerSittingOut p) as [s |]; [| discriminate].
      intros Hs. injection Hs as ->.
      rewrite (proj2 (position_eqb_eq _ _) eq_refl) in Esit. discriminate.
    + apply Forall_app. split.
      * apply Forall_forall. intros t Ht. apply distinctOwners_NoDup.
        rewrite forallb_forall in Hfin. apply Hfin. exact Ht.
      * constructor; [| constructor]. apply distinctOwners_NoDup. exact Hcur.
Qed.

Lemma checker_accepts (phase : Phase) :
  isConsistent phase ->
  determineIfPhaseIsLegal phase = (true, noIssueMessage).
Proof.
  intros (Hsit & Hteams & Hhands & Htricks & Hcount & Huniq & Hseats & Hopp
          & Hfull).
  unfold cardsOf, playersOf in *.
  apply opposite_check_iff in Hopp.
  unfold determineIfPhaseIsLegal.
  destruct (teams phase) as [| team0 [| team1 [| extra rest]]] eqn:Et;
    try discriminate Hteams.
  cbn [flat_map] in *. rewrite app_nil_r in *.
  rewrite fold_left_hands. cbn [app].
  rewrite Hopp.
  rewrite (proj2 (seats_check _) Hseats).
  destruct phase as [p | p | p | p];
    cbn [isTrickTaking isPickingPartnersBestCard negb andb tricksOf
         currentTrickIsFull flat_map] in *;
    try rewrite app_nil_r in *.
  - rewrite (proj2 (six_cards_check _) Hhands), Hcount,
      (unique_cards_check _ Huniq). reflexivity.
  - rewrite (proj2 (six_cards_check _) Hhands), Hcount,
      (unique_cards_check _ Huniq). reflexivity.
  - rewrite Hcount, (unique_cards_check _ Huniq). reflexivity.
  - assert (Hs : match playerSittingOut p with
                 | Some sittingOut => position_eqb sittingOut (cardPosition p)
                 | None => false
                 end = false).
    { destruct (playerSittingOut p) as [s |]; [| reflexivity].
      destruct (position_eqb s (cardPosition p)) eqn:E; [| reflexivity].
      apply position_eqb_eq in E. congruence. }
    rewrite Hs, Hfull.
    apply Forall_app in Htricks. destruct Htricks as [Hfin Hcur].
    assert (Hf : forallb distinctOwners (finishedTricks p) = true).
    { apply forallb_forall. intros t Ht. rewrite Forall_forall in Hfin.
      apply distinctOwners_check. apply Hfin. exact Ht. }
    rewrite Hf. inversion Hcur as [| ? ? Hc _]; subst.
    rewrite (distinctOwners_check _ Hc).
    rewrite (flat_map_app _ (finishedTricks p) [currentTrick p]) in Hcount, Huniq.
    cbn [flat_map] in Hcount, Huniq.
    rewrite app_nil_r in Hcount, Huniq.
    cbn [negb andb].
    rewrite Hcount, (unique_cards_check _ Huniq). reflexivity.
Qed.

(** X18: the checker accepts a phase exactly when the phase keeps every
    invariant: no sitting-out player to act, two teams, six-card hands while
    bidding and picking trump, one card per seat in every trick, 24 distinct
    cards over hands and tricks, every seat taken, each team on opposite
    seats, and fewer than four cards in the current trick. *)
Theorem determineIfPhaseIsLegal_exact (phase : Phase) :
  fst (determineIfPhaseIsLegal phase) = true <-> isConsistent phase.
Proof.
  split; [apply checker_accepts_consistent |].
  intros H. rewrite (checker_accepts phase H). reflexivity.
Qed.

Lemma checker_outcomes (phase : Phase) :
  In (determineIfPhaseIsLegal phase)
     ((true, noIssueMessage) :: map (pair false) diagnostics).
Proof.
  unfold determineIfPhaseIsLegal.
  repeat match goal with
         | |- context [match ?l with [] => _ | _ :: _ => _ end] => destruct l
         | |- context [if ?b then _ else _] => destruct b
         end; simpl; tauto.
Qed.

(** X19: the verdict and the message agree: the verdict is positive exactly
    when the message is "No issue detected", and negative exactly when the
    message is one of the nine diagnostics. *)
Theorem verdict_matches_message (phase : Phase) :
  (fst (determineIfPhaseIsLegal phase) = true <->
   snd (determineIfPhaseIsLegal phase) = noIssueMessage) /\
  (fst (determineIfPhaseIsLegal phase) = false <->
   In (snd (determineIfPhaseIsLegal phase)) diagnostics).
Proof.
  assert (H := checker_outcomes phase).
  assert (Hno : ~ In noIssueMessage diagnostics).
  { simpl. intuition discriminate. }
  destruct H as [<- | H].
  - simpl fst. simpl snd. split; split; intros H; try reflexivity;
      [discriminate H | contradiction].
  - apply in_map_iff in H. destruct H as [m [<- Hm]]. simpl fst. simpl snd.
    split; split; intros H; try reflexivity; try assumption;
      [discriminate H | subst m; contradiction].
Qed.

(** X20: for every option exactly one of the three type guards holds. *)
Theorem type_guards_exclusive (a : Option) :
  In (isBidChoice a, isTrump a, isCard a)
     [(true, false, false); (false, true, false); (false, false, true)].
Proof.
  destruct a as [b | t | c]; [destruct b | destruct t as [[] | |] |];
    simpl; tauto.
Qed.

Section Safety.
Variable C : Collaborators.

Lemma isLegalOption_needs_legal_phase option phase currentPlayer :
  isLegalOption C option phase currentPlayer = true ->
  fst (determineIfPhaseIsLegal phase) = true.
Proof.
  intros H. destruct (fst (determineIfPhaseIsLegal phase)) eqn:E;
    [reflexivity |].
  unfold isLegalOption in H. rewrite (getOptions_guard C _ _ E) in H.
  discriminate H.
Qed.

(** X21: an option is legal only on a phase that keeps every invariant:
    [isLegalOption] is false for every option on any other phase. *)
Theorem isLegalOption_implies_consistent option phase currentPlayer :
  isLegalOption C option phase currentPlayer = true -> isConsistent phase.
Proof.
  intros H. apply checker_accepts_consistent.
  apply (isLegalOption_needs_legal_phase _ _ _ H).
Qed.

Lemma chooseOption_result option phase currentPlayer next :
  fst (chooseOption C option phase currentPlayer) = inl next ->
  next = phase \/ fst (determineIfPhaseIsLegal next) = true.
Proof.
  unfold chooseOption.
  destruct (isLegalOption C option phase currentPlayer); cbn [negb orb truthy].
  - destruct (getPhase C option phase currentPlayer) as [candidate | over].
    + destruct (determineIfPhaseIsLegal candidate) as [[|] message] eqn:E;
        cbn [fst]; intros H; injection H as <-.
      * right. rewrite E. reflexivity.
      * left. reflexivity.
    + cbn [fst]. discriminate.
  - cbn [fst]. intros H. injection H as <-. left. reflexivity.
Qed.

(** X22: whatever the collaborators return, a phase that comes out of
    [chooseOption] is the input phase itself or passes the legality checker;
    and a Game Over result comes with no warning. *)
Theorem chooseOption_never_surfaces_illegal option phase currentPlayer :
  match chooseOption C option phase currentPlayer with
  | (inl next, _) => next = phase \/ fst (determineIfPhaseIsLegal next) = true
  | (inr _, warnings) => warnings = []
  end.
Proof.
  destruct (chooseOption C option phase currentPlayer) as [[next | over] w]
    eqn:E.
  - apply (chooseOption_result option phase currentPlayer). rewrite E.
    reflexivity.
  - revert E. unfold chooseOption.
    destruct (isLegalOption C option phase currentPlayer);
      cbn [negb orb truthy]; [| discriminate].
    destruct (getPhase C option phase currentPlayer) as [candidate | over'].
    + destruct (determineIfPhaseIsLegal candidate) as [[|] message];
        discriminate.
    + intros H. injection H as _ <-. reflexivity.
Qed.

(** X23: [chooseOption] keeps the invariants: from a phase that satisfies
    them, every phase it returns satisfies them too. *)
Theorem chooseOption_preserves_invariants option phase currentPlayer next :
  isConsistent phase ->
  fst (chooseOption C option phase currentPlayer) = inl next ->
  isConsistent next.
Proof.
  intros Hphase Hnext.
  destruct (chooseOption_result _ _ _ _ Hnext) as [-> | Hlegal];
    [exact Hphase | apply checker_accepts_consistent; exact Hlegal].
Qed.

(** X24: a legal option of the wrong kind for the phase (a trump while
    bidding, say) is dispatched to no collaborator: [chooseOption] returns
    the input phase, without a warning. *)
Theorem chooseOption_kind_mismatch option phase currentPlayer :
  isLegalOption C option phase currentPlayer = true ->
  guardOf phase option = false ->
  chooseOption C option phase currentPlayer = (inl phase, []).
Proof.
  intros Hlegal Hguard.
  assert (Hphase := isLegalOption_needs_legal_phase _ _ _ Hlegal).
  assert (Hget : getPhase C option phase currentPlayer = inl phase).
  { destruct phase as [p | p | p | p], option as [b | t | c];
      try reflexivity; simpl in Hguard;
      try destruct b; try destruct t as [[] | |]; discriminate Hguard. }
  unfold chooseOption. rewrite Hlegal, Hget. cbn [negb orb truthy].
  destruct (determineIfPhaseIsLegal phase) as [[|] message];
    [reflexivity | discriminate Hphase].
Qed.

End Safety.

Lemma isLegalOption_implies_consistent_witness :
  isConsistent sampleBidding.
Proof.
  apply (isLegalOption_implies_consistent sampleCollaborators (OptionBid Bid4)
           sampleBidding P2).
  vm_compute. reflexivity.
Defined.

Lemma sampleBidding_consistent : isConsistent sampleBidding.
Proof. apply checker_accepts_consistent. vm_compute. reflexivity. Qed.

Lemma chooseOption_preserves_invariants_witness :
  isConsistent
    (Bidding (mkBiddingPhase sampleTeams P1 P3 [mkBid P2 Bid4])).
Proof.
  apply (chooseOption_preserves_invariants sampleCollaborators
           (OptionBid Bid4) sampleBidding P2).
  - exact sampleBidding_consistent.
  - vm_compute. reflexivity.
Defined.

Lemma chooseOption_kind_mismatch_witness :
  chooseOption confusedCollaborators (OptionTrump High) sampleBidding P2
  = (inl sampleBidding, []).
Proof.
  apply (chooseOption_kind_mismatch confusedCollaborators (OptionTrump High)
           sampleBidding P2); vm_compute; reflexivity.
Defined.

(** ** What [startGame] deals *)

Lemma dealt_concat (l : list Card) :
  length l = 24 ->
  l = dealtTo l P1 ++ dealtTo l P2 ++ dealtTo l P3 ++ dealtTo l P4.
Proof.
  intros H. destruct l as [| c l]; [discriminate |].
  do 23 (destruct l as [| ? l]; [discriminate |]).
  destruct l; [reflexivity | discriminate].
Qed.

Lemma dealtTo_length (l : list Card) (seat : PlayerPosition) :
  24 <= length l -> length (dealtTo l seat) = 6.
Proof.
  intros H. unfold dealtTo. rewrite length_firstn, length_skipn.
  destruct seat; simpl getIndex; lia.
Qed.

Lemma first_match_In {A} (f : A -> bool) (l : list A) (x : A) :
  hd_error (filter f l) = Some x -> In x l.
Proof.
  induction l as [| y rest IH]; simpl; [discriminate |].
  destruct (f y); simpl; [intros H; injection H as ->; left; reflexivity |].
  intros H. right. apply IH. exact H.
Qed.

Lemma startGame_explicit
    (shuffle : list Card -> list Card) (random : Q)
    (players : list LobbyPlayer) :
  Permutation (map lobby_position players) allPositions ->
  (0 <= random)%Q -> (random < 1)%Q ->
  24 <= length (shuffle getAllCards) ->
  exists dealer lp1 lp2 lp3 lp4,
    (In lp1 players /\ In lp2 players /\ In lp3 players /\ In lp4 players) /\
    (lobby_position lp1 = P1 /\ lobby_position lp2 = P2 /\
     lobby_position lp3 = P3 /\ lobby_position lp4 = P4) /\
    startGame shuffle random players =
    Some (let phase := dealtPhase (shuffle getAllCards) dealer lp1 lp2 lp3 lp4 in
          let result := determineIfPhaseIsLegal (Bidding phase) in
          if fst result then inl phase else inr result).
Proof.
  intros Hseats Hlow Hhigh Hlen.
  destruct (randomPlayerPosition_defined random Hlow Hhigh) as [dealer Hdealer].
  assert (Hseat : forall seat, In seat (map lobby_position players)).
  { intros seat. apply (Permutation_in _ (Permutation_sym Hseats)).
    destruct seat; simpl; tauto. }
  destruct (seat_lookup players P1 (Hseat P1)) as (lp1 & F1 & S1).
  destruct (seat_lookup players P2 (Hseat P2)) as (lp2 & F2 & S2).
  destruct (seat_lookup players P3 (Hseat P3)) as (lp3 & F3 & S3).
  destruct (seat_lookup players P4 (Hseat P4)) as (lp4 & F4 & S4).
  exists dealer, lp1, lp2, lp3, lp4.
  split; [repeat split; eapply first_match_In; eassumption |].
  split; [tauto |].
  unfold startGame. rewrite Hdealer, (deal_enough shuffle Hlen).
  cbn [bindOption]. rewrite F1, F2, F3, F4. reflexivity.
Qed.

Lemma swap_middle {A} (a b c d : list A) :
  Permutation (a ++ c ++ b ++ d) (a ++ b ++ c ++ d).
Proof.
  apply Permutation_app_head. rewrite !app_assoc.
  apply Permutation_app_tail. apply Permutation_app_comm.
Qed.

Lemma dealtPhase_cards (l : list Card) dealer lp1 lp2 lp3 lp4 :
  length l = 24 ->
  Permutation (cardsOf (Bidding (dealtPhase l dealer lp1 lp2 lp3 lp4))) l.
Proof.
  intros Hlen. unfold cardsOf, playersOf. cbn. rewrite !app_nil_r.
  rewrite (dealt_concat l Hlen) at 5. apply swap_middle.
Qed.

Lemma dealtPhase_legal (l : list Card) dealer lp1 lp2 lp3 lp4 :
  length l = 24 -> NoDup l ->
  lobby_position lp1 = P1 -> lobby_position lp2 = P2 ->
  lobby_position lp3 = P3 -> lobby_position lp4 = P4 ->
  determineIfPhaseIsLegal (Bidding (dealtPhase l dealer lp1 lp2 lp3 lp4))
  = (true, noIssueMessage).
Proof.
  intros Hlen Hnodup S1 S2 S3 S4. apply checker_accepts.
  assert (Hcards := dealtPhase_cards l dealer lp1 lp2 lp3 lp4 Hlen).
  assert (H6 : forall seat, length (dealtTo l seat) = 6)
    by (intros seat; apply dealtTo_length; lia).
  unfold isConsistent. repeat split.
  - cbn. repeat constructor; apply H6.
  - constructor.
  - rewrite (Permutation_length Hcards). exact Hlen.
  - apply (Permutation_NoDup (Permutation_sym Hcards)). exact Hnodup.
  - intros seat. cbn. rewrite S1, S2, S3, S4. destruct seat; tauto.
  - cbn. repeat constructor; unfold sitsOpposite; cbn; rewrite ?S1, ?S2, ?S3, ?S4;
      tauto.
Qed.

Lemma dealtPhase_duplicates (l : list Card) dealer lp1 lp2 lp3 lp4 :
  length l = 24 -> ~ NoDup l ->
  determineIfPhaseIsLegal (Bidding (dealtPhase l dealer lp1 lp2 lp3 lp4))
  = (false, uniqueMessage).
Proof.
  intros Hlen Hdup.
  assert (Hcards := dealtPhase_cards l dealer lp1 lp2 lp3 lp4 Hlen).
  assert (H6 : forall seat, length (dealtTo l seat) = 6)
    by (intros seat; apply dealtTo_length; lia).
  unfold cardsOf, playersOf in Hcards. cbn in Hcards.
  rewrite !app_nil_r in Hcards.
  unfold determineIfPhaseIsLegal, dealtPhase, seatPlayer in *.
  cbn [teams bidding_teams players isTrickTaking
       isPickingPartnersBestCard negb andb app].
  rewrite fold_left_hands.
  cbn [forallb hand flat_map app]. rewrite !H6, !app_nil_r.
  cbn [Nat.eqb andb negb].
  rewrite !length_app, !H6. cbn [Nat.add Nat.eqb negb].
  rewrite duplicate_cards_check; [reflexivity |].
  intros Hn. apply Hdup. apply (Permutation_NoDup Hcards). exact Hn.
Qed.

(** X25: with a shuffle that permutes the deck, the phase [startGame]
    returns holds the whole deck, the seat of index [k] holds the cards
    [6k .. 6k+5] of the shuffled deck, and every seated player is one of the
    lobby players with name and seat unchanged. *)
Theorem startGame_hands
    (shuffle : list Card -> list Card) (random : Q)
    (players : list LobbyPlayer) :
  Permutation (map lobby_position players) allPositions ->
  (0 <= random)%Q -> (random < 1)%Q ->
  Permutation getAllCards (shuffle getAllCards) ->
  exists phase,
    startGame shuffle random players = Some (inl phase) /\
    Permutation (cardsOf (Bidding phase)) getAllCards /\
    (forall seat,
       handOf (bidding_teams phase) seat = dealtTo (shuffle getAllCards) seat) /\
    (forall player,
       In player (playersOf (Bidding phase)) ->
       In (mkLobbyPlayer (name player) (position player)) players).
Proof.
  intros Hseats Hlow Hhigh Hperm.
  assert (Hlen : length (shuffle getAllCards) = 24).
  { rewrite <- (Permutation_length Hperm). reflexivity. }
  assert (Hnodup : NoDup (shuffle getAllCards)).
  { apply (Permutation_NoDup Hperm). exact getAllCards_NoDup. }
  destruct (startGame_explicit shuffle random players Hseats Hlow Hhigh)
    as (dealer & lp1 & lp2 & lp3 & lp4 & (I1 & I2 & I3 & I4)
        & (S1 & S2 & S3 & S4) & Hstart); [lia |].
  cbv zeta in Hstart.
  rewrite (dealtPhase_legal _ dealer lp1 lp2 lp3 lp4 Hlen Hnodup S1 S2 S3 S4)
    in Hstart.
  cbn [fst] in Hstart.
  eexists. split; [exact Hstart |]. split; [| split].
  - eapply Permutation_trans; [apply dealtPhase_cards; exact Hlen |].
    apply Permutation_sym. exact Hperm.
  - intros seat. unfold handOf. cbn. rewrite S1, S2, S3, S4.
    destruct seat; cbn; rewrite app_nil_r; reflexivity.
  - intros player Hin. unfold playersOf in Hin. cbn in Hin.
    destruct Hin as [<- | [<- | [<- | [<- | []]]]]; cbn;
      [destruct lp1 | destruct lp3 | destruct lp2 | destruct lp4]; assumption.
Qed.

Lemma startGame_hands_witness :
  exists phase,
    startGame (@rev Card) (1 # 4) sampleLobby = Some (inl phase) /\
    Permutation (cardsOf (Bidding phase)) getAllCards /\
    (forall seat,
       handOf (bidding_teams phase) seat = dealtTo (rev getAllCards) seat) /\
    (forall player,
       In player (playersOf (Bidding phase)) ->
       In (mkLobbyPlayer (name player) (position player)) sampleLobby).
Proof.
  apply (startGame_hands (@rev Card) (1 # 4) sampleLobby).
  - apply Permutation_refl.
  - discriminate.
  - reflexivity.
  - apply Permutation_rev.
Defined.

(** X26: with a shuffle that returns 24 cards of which two are the same,
    [startGame] returns no phase but the checker's verdict, with the message
    "Not every card is unique". *)
Theorem startGame_faulty_shuffle
    (shuffle : list Card -> list Card) (random : Q)
    (players : list LobbyPlayer) :
  Permutation (map lobby_position players) allPositions ->
  (0 <= random)%Q -> (random < 1)%Q ->
  length (shuffle getAllCards) = 24 ->
  ~ NoDup (shuffle getAllCards) ->
  startGame shuffle random players = Some (inr (false, uniqueMessage)).
Proof.
  intros Hseats Hlow Hhigh Hlen Hdup.
  destruct (startGame_explicit shuffle random players Hseats Hlow Hhigh)
    as (dealer & lp1 & lp2 & lp3 & lp4 & _ & _ & Hstart); [lia |].
  cbv zeta in Hstart.
  rewrite (dealtPhase_duplicates _ dealer lp1 lp2 lp3 lp4 Hlen Hdup) in Hstart.
  exact Hstart.
Qed.

Lemma startGame_faulty_shuffle_witness :
  startGame stuckShuffle (1 # 4) sampleLobby
  = Some (inr (false, uniqueMessage)).
Proof.
  apply (startGame_faulty_shuffle stuckShuffle (1 # 4) sampleLobby).
  - apply Permutation_refl.
  - discriminate.
  - reflexivity.
  - reflexivity.
  - intros H. inversion H as [| x l Hnotin _]. apply Hnotin. left. reflexivity.
Defined.

Example deal_after_lost_card : shuffleAndDealFourHands lossyShuffle = None.
Proof. reflexivity. Qed.
